(** * Serge API routers: a shallow embedding of [serge/routers/auth.py] and
    [serge/routers/chat.py], and the properties of the chat-session
    lifecycle, streaming generation and identity fallback.

    Conventions of the embedding.
    - Python [int] is [Z]; [str] is [string]; a list is [list].
    - A function that may raise returns [result]; [Raise e] is the exception
      leaving the function.
    - An [async def] handler is a [Coroutine]: a suspended computation over
      the shared [World].  Calling the handler only builds the coroutine;
      [await] runs it.
    - The Redis server is the record [Redis]: the set stored under the key
      ["chats"], the blobs stored under ["chat:<id>"], and the lists that
      [RedisChatMessageHistory] keeps under its own key prefix.
    - The modules of the package that the routers import ([serge.crud],
      [serge.utils.security], [serge.utils.stream]) and the inference engine
      are the fields of the class [Collaborators]. *)

From Stdlib Require Import ZArith QArith Ascii String List Sorting.Sorted.
From stdpp Require Import gmap strings list fin_maps sorting.

Local Open Scope Z_scope.

(** ** Exceptions and results *)

(** The exception classes the routers raise, catch or test for.
    [HTTPException] carries its [status_code]. *)
Inductive exc_class : Type :=
  | HTTPException (status_code : Z)
  | ValueError
  | UnicodeDecodeError
  | ValidationError
  | JWTError
  | IndexError
  | KeyError
  | AssertionError
  | RuntimeError.

(** An exception object: its class and the text of [e.__str__()] (for an
    [HTTPException], its [detail]). *)
Record exn : Type := mk_exn { exc_type : exc_class; exc_str : string }.

(** [isinstance(e, ValueError)]: [UnicodeDecodeError] (through
    [UnicodeError]) and pydantic's [ValidationError] derive from it. *)
Definition is_ValueError (e : exn) : bool :=
  match exc_type e with
  | ValueError | UnicodeDecodeError | ValidationError => true
  | _ => false
  end.

(** [isinstance(e, HTTPException)] *)
Definition is_HTTPException (e : exn) : bool :=
  match exc_type e with HTTPException _ => true | _ => false end.

(** [isinstance(e, JWTError)] *)
Definition is_JWTError (e : exn) : bool :=
  match exc_type e with JWTError => true | _ => false end.

(** [type(e) is UnicodeDecodeError] *)
Definition type_is_UnicodeDecodeError (e : exn) : bool :=
  match exc_type e with UnicodeDecodeError => true | _ => false end.

Inductive result (A : Type) : Type :=
  | Ok (a : A)
  | Raise (e : exn).
Arguments Ok {A} a.
Arguments Raise {A} e.

(** ** Data model *)

(** [serge.schema.user]: a credential row, a chat reference, a user. *)
Record UserAuth : Type := mk_auth { auth_type : Z; secret : string }.
Record UserChat : Type := mk_userchat { chat_id : string; owner : string }.
Record User : Type := mk_user {
  username : string;
  auth : list UserAuth;
  chats : list UserChat
}.

(** [langchain.schema]: a message is a role and a content. *)
Inductive role : Type := system | human | ai.
Record Message : Type := mk_message { msg_role : role; content : string }.
Definition SystemMessage (c : string) : Message := mk_message system c.
Definition HumanMessage (c : string) : Message := mk_message human c.
Definition AIMessage (c : string) : Message := mk_message ai c.

(** [serge.models.chat]: the parameters of a chat and the chat itself.
    The three floating-point sampling knobs are rationals here; the routers
    only pass them on to the engine. *)
Record ChatParameters : Type := mk_params {
  model_path : string;
  temperature : Q;
  top_k : Z;
  top_p : Q;
  max_tokens : Z;
  n_ctx : Z;
  n_gpu_layers : option Z;
  last_n_tokens_size : Z;
  repeat_penalty : Q;
  n_threads : Z;
  init_prompt : string
}.

Record Chat : Type := mk_chat {
  id : string;
  chat_owner : string;
  created : Z;
  params : ChatParameters
}.

(** The Redis server. *)
Record Redis : Type := mk_redis {
  chats_set : gset string;
  chat_blob : gmap string Chat;
  message_store : gmap string (list Message)
}.

(** The events of a server-sent event stream. *)
Inductive event : Type :=
  | EvMessage (data : string)
  | EvError
  | EvClose.

(** What the engine does when it is asked to stream: the fragments it
    produces, in order, and how production ends. *)
Inductive generation_end : Type :=
  | Exhausted
  | Raises (e : exn).
Record generation : Type := mk_generation {
  fragments : list string;
  ending : generation_end
}.

(** ** Collaborators *)

Class Collaborators : Type := {
  (** the SQLAlchemy session, with [serge.crud] *)
  Session : Type;
  get_user : Session -> string -> option User;
  create_chat : Session -> UserChat -> Session;
  update_user : Session -> User -> Session;
  remove_chat : Session -> UserChat -> Session;
  (** [serge.utils.security] *)
  verify_password : string -> string -> bool;
  decode_access_token : string -> result (option string);
  (** [os.path.exists] *)
  path_exists : string -> bool;
  (** [serge.utils.stream.get_prompt], on the messages of the history *)
  get_prompt : list Message -> ChatParameters -> string;
  (** [llama_cpp.Llama]: the constructor and the streaming call *)
  LlamaClient : Type;
  Llama : string -> Z -> option Z -> Z -> Z -> result LlamaClient;
  Llama_call : LlamaClient -> string -> ChatParameters -> generation
}.

(** ** auth.py *)

Section Auth.
Context `{Collaborators}.

(** What [authenticate_user] returns: the user, [None] or [False]. *)
Inductive auth_outcome : Type :=
  | ReturnsUser (u : User)
  | ReturnsNone
  | ReturnsFalse.

(** The truth value of an outcome, as [if not user] reads it. *)
Definition truthy (o : auth_outcome) : bool :=
  match o with ReturnsUser _ => true | _ => false end.

Definition authenticate_user (username password : string) (db : Session)
  : result auth_outcome :=
  match get_user db username with
  | None => Ok ReturnsNone
  | Some user =>
    let auths := map auth_type (auth user) in
    (* the end of the body: [if 2 in auths: pass], then [return False] *)
    let otherwise :=
      if bool_decide (2 ∈ auths) then Ok ReturnsFalse else Ok ReturnsFalse in
    if bool_decide (0 ∈ auths) then Ok (ReturnsUser user)
    else if bool_decide (1 ∈ auths) then
      (* [[x for x in user.auth if x.auth_type == 1][0].secret] *)
      match filter (fun x => auth_type x = 1) (auth user) with
      | x :: _ =>
        if verify_password password (secret x) then Ok (ReturnsUser user)
        else otherwise
      | [] => Raise (mk_exn IndexError "list index out of range")
      end
    else otherwise
  end.

(** The HTTP response under construction: the cookies it clears. *)
Record Response : Type := mk_response { deleted_cookies : list string }.

Record Request : Type := mk_request { cookies : gmap string string }.

Definition logout (response : Response) : Response :=
  mk_response (deleted_cookies response ++ ["token"]).

Definition credentials_exception : exn :=
  mk_exn (HTTPException 401) "Could not validate credentials".

Definition get_current_user (token : string) (db : Session) : result User :=
  match decode_access_token token with
  | Raise e =>
    if is_JWTError e then Raise credentials_exception else Raise e
  | Ok None => Raise credentials_exception
  | Ok (Some username) =>
    match get_user db username with
    | None => Raise credentials_exception
    | Some user => Ok user
    end
  end.

(** [not token], for the value of [request.cookies.get("token")] *)
Definition not_token (token : option string) : bool :=
  match token with
  | None => true
  | Some t => bool_decide (t = "")
  end.

Definition get_current_active_user (request : Request) (response : Response)
    (db : Session) : result (option User) * Response :=
  let token := cookies request !! "token" in
  if not_token token then (Ok (get_user db "system"), response)
  else
    (* [token] is a string that is not empty here *)
    match get_current_user (default "" token) db with
    | Ok u => (Ok (Some u), response)
    | Raise e =>
      if is_HTTPException e
      then (Ok (get_user db "system"), logout response)
      else (Raise e, response)
    end.

(** The contract of the token decoder: whatever it raises is a
    [JWTError]. *)
Definition decoder_raises_only_JWTError : Prop :=
  forall token e, decode_access_token token = Raise e -> is_JWTError e = true.

(** The token cookie of a request resolves to no user: it is absent or
    empty, or it does not decode (malformed, expired), or it carries no
    subject, or its subject is no user of the database. *)
Definition token_rejected (request : Request) (db : Session) : Prop :=
  cookies request !! "token" = None
  \/ cookies request !! "token" = Some ""
  \/ exists token, cookies request !! "token" = Some token
      /\ ((exists e, decode_access_token token = Raise e)
          \/ decode_access_token token = Ok None
          \/ exists name, decode_access_token token = Ok (Some name)
               /\ get_user db name = None).

End Auth.

(** ** chat.py *)

Section Chat.
Context `{Collaborators}.

(** The state the handlers share: the Redis server and the relational
    database behind the handle [db]. *)
Record World : Type := mk_world { redis : Redis; db : Session }.

(** An [async def] function called on its arguments: nothing has run yet. *)
Definition Coroutine (A : Type) : Type := World -> result A * World.

(** [await c] *)
Definition await {A : Type} (c : Coroutine A) (w : World) : result A * World :=
  c w.

Definition unauth_error : exn := mk_exn (HTTPException 401) "Unauthorized".

(** *** The Redis client *)

(** [client.sismember("chats", chat_id)] *)
Definition sismember (client : Redis) (member : string) : bool :=
  bool_decide (member ∈ chats_set client).

(** [client.sadd("chats", chat_id)] *)
Definition sadd (client : Redis) (member : string) : Redis :=
  mk_redis ({[member]} ∪ chats_set client) (chat_blob client)
           (message_store client).

(** [client.srem("chats", chat_id)] *)
Definition srem (client : Redis) (member : string) : Redis :=
  mk_redis (chats_set client ∖ {[member]}) (chat_blob client)
           (message_store client).

(** [client.get(f"chat:{chat_id}")] *)
Definition redis_get (client : Redis) (chat_id : string) : option Chat :=
  chat_blob client !! chat_id.

(** [client.set(f"chat:{chat.id}", chat.json())] *)
Definition redis_set (client : Redis) (chat_id : string) (chat : Chat) : Redis :=
  mk_redis (chats_set client) (<[chat_id := chat]> (chat_blob client))
           (message_store client).

(** [client.delete(f"chat:{chat_id}")] *)
Definition redis_delete (client : Redis) (chat_id : string) : Redis :=
  mk_redis (chats_set client) (delete chat_id (chat_blob client))
           (message_store client).

(** *** [RedisChatMessageHistory(session_id)] *)

(** [history.messages]: the list under the session's key, oldest first; a
    key that does not exist reads as the empty list. *)
Definition history_messages (r : Redis) (session_id : string) : list Message :=
  default [] (message_store r !! session_id).

(** [history.append(message)] *)
Definition history_append (session_id : string) (message : Message) (r : Redis)
  : Redis :=
  mk_redis (chats_set r) (chat_blob r)
           (<[session_id := history_messages r session_id ++ [message]]>
              (message_store r)).

(** [history.clear()]: the key is deleted. *)
Definition history_clear (session_id : string) (r : Redis) : Redis :=
  mk_redis (chats_set r) (chat_blob r) (delete session_id (message_store r)).

(** *** Helpers of the handlers *)

(** [[x.chat_id for x in u.chats]] *)
Definition chat_ids (u : User) : list string := map chat_id (chats u).

(** [next((x for x in u.chats if x.chat_id == chat_id), None)] *)
Definition next_chat (u : User) (cid : string) : option UserChat :=
  head (filter (fun x => chat_id x = cid) (chats u)).

(** [_try_get_chat].  [Chat.parse_raw] gives back the chat that was stored,
    which has an owner, and raises on the missing value of an absent key. *)
Definition _try_get_chat (client : Redis) (chat_id : string) : result Chat :=
  if negb (sismember client chat_id)
  then Raise (mk_exn ValueError "Chat does not exist")
  else
    match redis_get client chat_id with
    | Some chat => Ok chat
    | None => Raise (mk_exn ValidationError "1 validation error for Chat")
    end.

Definition weights (model : string) : string :=
  "/usr/src/app/weights/" +:+ model +:+ ".bin".

(** *** Handlers *)

(** [create_new_chat].  [new_id] and [now] are the [id] and [created] that
    the [Chat] model draws for a new object. *)
Definition create_new_chat (u : User) (model : string) (temperature : Q)
    (top_k : Z) (top_p : Q) (max_length context_window : Z)
    (gpu_layers : option Z) (repeat_last_n : Z) (repeat_penalty : Q)
    (init_prompt : string) (n_threads : Z) (new_id : string) (now : Z)
  : Coroutine string := fun w =>
  if negb (path_exists (weights model))
  then (Raise (mk_exn ValueError
                 ("Model can't be found: " +:+ weights model)), w)
  else
    let client := redis w in
    let params :=
      mk_params model temperature top_k top_p max_length context_window
                gpu_layers repeat_last_n repeat_penalty n_threads init_prompt in
    let chat := mk_chat new_id (username u) now params in
    let client := redis_set client (id chat) chat in
    let uc := mk_userchat (id chat) (username u) in
    let db1 := create_chat (db w) uc in
    let u := mk_user (username u) (auth u) (chats u ++ [uc]) in
    let db2 := update_user db1 u in
    let client := history_append (id chat) (SystemMessage init_prompt) client in
    let client := sadd client (id chat) in
    (Ok (id chat), mk_world client db2).

(** What [get_specific_chat] returns: [chat.dict()] with the key
    ["history"] added. *)
Record ChatDict : Type := mk_chatdict {
  cd_chat : Chat;
  cd_history : list Message
}.

Definition get_specific_chat (chat_id : string) (u : User)
  : Coroutine ChatDict := fun w =>
  let client := redis w in
  if bool_decide (chat_id ∉ chat_ids u) then (Raise unauth_error, w)
  else
    match _try_get_chat client chat_id with
    | Raise e => (Raise e, w)
    | Ok chat =>
      (Ok (mk_chatdict chat (history_messages client (id chat))), w)
    end.

(** [[await f(x) for x in xs]] *)
Fixpoint await_each {A B : Type} (f : A -> Coroutine B) (xs : list A)
  : Coroutine (list B) := fun w =>
  match xs with
  | [] => (Ok [], w)
  | x :: xs' =>
    match await (f x) w with
    | (Raise e, w1) => (Raise e, w1)
    | (Ok y, w1) =>
      match await_each f xs' w1 with
      | (Raise e, w2) => (Raise e, w2)
      | (Ok ys, w2) => (Ok (y :: ys), w2)
      end
    end
  end.

(** [sorted(xs, key=key, reverse=True)]: descending keys, and equal keys in
    the order of [xs]. *)
Fixpoint insert_reverse {A : Type} (key : A -> Z) (x : A) (l : list A)
  : list A :=
  match l with
  | [] => [x]
  | y :: l' =>
    if key y <=? key x then x :: y :: l' else y :: insert_reverse key x l'
  end.

Definition sorted_reverse {A : Type} (key : A -> Z) (xs : list A) : list A :=
  foldr (insert_reverse key) [] xs.

(** One entry of the list [get_all_chats] returns. *)
Record Summary : Type := mk_summary {
  s_id : string;
  s_created : Z;
  s_model : string;
  s_subtitle : string
}.

(** The body of the [for chat in chats] loop. *)
Definition summary_of (chat : ChatDict) : Summary :=
  let subtitle :=
    match last (cd_history chat) with
    | Some m => content m
    | None => ""
    end in
  mk_summary (id (cd_chat chat)) (created (cd_chat chat))
             (model_path (params (cd_chat chat))) subtitle.

Definition get_all_chats (u : User) : Coroutine (list Summary) := fun w =>
  match await_each (fun x => get_specific_chat (chat_id x) u) (chats u) w with
  | (Raise e, w1) => (Raise e, w1)
  | (Ok fetched, w1) =>
    let chats := sorted_reverse (fun x => created (cd_chat x)) fetched in
    (Ok (foldl (fun res chat => res ++ [summary_of chat]) [] chats), w1)
  end.

(** [l[:idx]] *)
Definition slice_to {A : Type} (l : list A) (idx : Z) : list A :=
  if 0 <=? idx then take (Z.to_nat idx) l
  else take (Z.to_nat (Z.of_nat (length l) + idx)) l.

Definition delete_prompt (chat_id : string) (idx : Z) (u : User)
  : Coroutine bool := fun w =>
  if bool_decide (chat_id ∉ chat_ids u) then (Raise unauth_error, w)
  else
    let history := redis w in
    if idx >=? Z.of_nat (length (history_messages history chat_id))
    then (Raise (mk_exn (HTTPException 202)
                   "Unable to delete message, chat in progress"), w)
    else
      let messages := slice_to (history_messages history chat_id) idx in
      let history := history_clear chat_id history in
      let history :=
        foldl (fun h message => history_append chat_id message h)
              history messages in
      (Ok true, mk_world history (db w)).

Definition delete_chat (chat_id : string) (u : User) : Coroutine bool :=
  fun w =>
  let client := redis w in
  if bool_decide (chat_id ∉ chat_ids u) then (Raise unauth_error, w)
  else if negb (sismember client chat_id)
  then (Raise (mk_exn ValueError "Chat does not exist"), w)
  else
    let db1 :=
      match next_chat u chat_id with
      | Some cid => remove_chat (db w) cid
      | None => db w
      end in
    let client := history_clear chat_id client in
    let client := redis_delete client chat_id in
    let client := srem client chat_id in
    (Ok true, mk_world client db1).

(** [delete_all_chats]: the comprehension calls [delete_chat] on every chat
    of the user and keeps the coroutines in a list that is dropped; none of
    them is awaited. *)
Definition delete_all_chats (u : User) : Coroutine bool := fun w =>
  let _coroutines : list (Coroutine bool) :=
    map (fun x => delete_chat (chat_id x) u) (chats u) in
  (Ok true, w).

(** Every chat reference of the user has its session on the server: the id
    is in the set of chats, and the blob stored for it carries that id. *)
Definition owned_chats_stored (u : User) (r : Redis) : Prop :=
  forall x, x ∈ chats u ->
    chat_id x ∈ chats_set r
    /\ exists chat, chat_blob r !! chat_id x = Some chat /\ id chat = chat_id x.

(** What [get_all_chats] fetched for a chat of the user, read against the
    server. *)
Definition fetched_from (r : Redis) (x : UserChat) (d : ChatDict) : Prop :=
  id (cd_chat d) = chat_id x
  /\ redis_get r (chat_id x) = Some (cd_chat d)
  /\ cd_history d = history_messages r (chat_id x).

(** *** Streaming generation *)

(** What [stream_ask_a_question] hands back: the dictionary of the early
    return, or the [EventSourceResponse] with the events its generator
    yields when the response is sent. *)
Inductive stream_response : Type :=
  | ErrorDict
  | EventSourceResponse (events : list event).

(** The local variables of [event_generator] and what it has yielded. *)
Record generator_state : Type := mk_gen {
  full_answer : string;
  error : option string;
  yielded : list event
}.

(** The body of the [for output in client(...)] loop, for one fragment. *)
Definition on_output (g : generator_state) (txt : string) : generator_state :=
  mk_gen (full_answer g +:+ txt) (error g) (yielded g ++ [EvMessage txt]).

(** [if error], for [error] either [None] or a string *)
Definition error_is_set (error : option string) : bool :=
  match error with
  | None => false
  | Some s => negb (bool_decide (s = ""))
  end.

(** [event_generator], run until it is exhausted, on the history of
    [chat]. *)
Definition event_generator (client : LlamaClient) (prompt : string)
    (chat : Chat) (history : Redis) : list event * Redis :=
  let output := Llama_call client prompt (params chat) in
  (* try: the loop *)
  let g := foldl on_output (mk_gen "" None []) (fragments output) in
  (* except Exception as e *)
  let g :=
    match ending output with
    | Exhausted => g
    | Raises e =>
      if type_is_UnicodeDecodeError e then g
      else mk_gen (full_answer g) (Some (exc_str e)) (yielded g ++ [EvError])
    end in
  (* finally *)
  let history :=
    if error_is_set (error g)
    then history_append (id chat) (SystemMessage (default "" (error g))) history
    else history_append (id chat) (AIMessage (full_answer g)) history in
  (yielded g ++ [EvClose], history).

Definition newline : string := String "010"%char "".

Definition stream_ask_a_question (chat_id prompt : string) (u : User)
  : Coroutine stream_response := fun w =>
  if bool_decide (chat_id ∉ chat_ids u) then (Raise unauth_error, w)
  else
    let client := redis w in
    if negb (sismember client chat_id)
    then (Raise (mk_exn ValueError "Chat does not exist"), w)
    else
      match _try_get_chat client chat_id with
      | Raise e => (Raise e, w)
      | Ok chat =>
        let history :=
          if Z.of_nat (String.length prompt) >? 0
          then history_append (id chat) (HumanMessage prompt) client
          else client in
        let prompt :=
          get_prompt (history_messages history (id chat)) (params chat)
          +:+ "### Response:" +:+ newline in
        match Llama (weights (model_path (params chat)))
                    (Z.of_nat (String.length (init_prompt (params chat)))
                     + n_ctx (params chat))
                    (n_gpu_layers (params chat))
                    (n_threads (params chat))
                    (last_n_tokens_size (params chat)) with
        | Raise e =>
          if is_ValueError e
          then
            let error := exc_str e in
            (Ok ErrorDict,
             mk_world (history_append (id chat) (SystemMessage error) history)
                      (db w))
          else (Raise e, mk_world history (db w))
        | Ok client =>
          let '(events, history) := event_generator client prompt chat history in
          (Ok (EventSourceResponse events), mk_world history (db w))
        end
      end.

End Chat.

(** ** auth.py: login *)

(** What the login handler takes from [serge.utils.security] and from the
    settings. *)
Class LoginCollaborators : Type := {
  (** [create_access_token(data={"sub": sub}, expires_delta=minutes)], at
      the time [now] of the call *)
  create_access_token : Z -> string -> Z -> string;
  (** [settings.SESSION_EXPIRY], in minutes *)
  SESSION_EXPIRY : Z
}.

Section Login.
Context `{Collaborators} `{LoginCollaborators}.

(** The two fields of [OAuth2PasswordRequestForm] the handler reads. *)
Record OAuth2PasswordRequestForm : Type := mk_form {
  form_username : string;
  form_password : string
}.

(** The response model [Token]. *)
Record Token : Type := mk_token { access_token : string; token_type : string }.

(** A cookie as [response.set_cookie] receives it. *)
Record Cookie : Type := mk_cookie {
  cookie_key : string;
  cookie_value : string;
  httponly : bool;
  secure : bool;
  samesite : string
}.

Definition incorrect_login : exn :=
  mk_exn (HTTPException 401) "Incorrect username or password".

(** [login_for_access_token]: the dictionary it returns and the cookie it
    sets on the response. *)
Definition login_for_access_token (form_data : OAuth2PasswordRequestForm)
    (db : Session) (now : Z) : result (Token * Cookie) :=
  match authenticate_user (form_username form_data) (form_password form_data)
                          db with
  | Raise e => Raise e
  | Ok (ReturnsUser user) =>
    let access_token :=
      create_access_token now (username user) SESSION_EXPIRY in
    Ok (mk_token access_token "bearer",
        mk_cookie "token" access_token true true "strict")
  | Ok ReturnsNone | Ok ReturnsFalse => Raise incorrect_login
  end.

(** The decoder reads back the subject of every token that
    [create_access_token] issues, and no issued token is the empty
    string. *)
Definition tokens_round_trip : Prop :=
  forall now sub,
    decode_access_token (create_access_token now sub SESSION_EXPIRY)
    = Ok (Some sub)
    /\ create_access_token now sub SESSION_EXPIRY <> "".

(** The database keeps every user under the user's own name. *)
Definition users_keyed_by_name (db : Session) : Prop :=
  forall name user, get_user db name = Some user -> username user = name.

End Login.

(** ** chat.py: the transcript alone, and the blocking question *)

(** One entry of the ["choices"] of a completion, with its ["text"] when it
    has one. *)
Record Choice : Type := mk_choice { choice_text : option string }.

(** The dictionary a blocking call of the engine returns, with its
    ["choices"] when it has the key. *)
Record Completion : Type := mk_completion {
  completion_choices : option (list Choice)
}.

(** The blocking call of the engine, and [str] on what it returns. *)
Class BlockingEngine (C : Collaborators) : Type := {
  Llama_complete : LlamaClient -> string -> ChatParameters -> result Completion;
  completion_str : Completion -> string
}.

Section Blocking.
Context {C : Collaborators} {B : BlockingEngine C}.

Definition get_chat_history (chat_id : string) (u : User)
  : Coroutine (list Message) := fun w =>
  if bool_decide (chat_id ∉ chat_ids u) then (Raise unauth_error, w)
  else
    let history := redis w in
    (Ok (history_messages history chat_id), w).

(** The statements under [try] in [ask_a_question]: the answer of the
    engine and the [full_answer] read from it. *)
Definition complete (chat : Chat) (prompt : string)
  : result (Completion * string) :=
  match Llama (weights (model_path (params chat)))
              (Z.of_nat (String.length (init_prompt (params chat)))
               + n_ctx (params chat))
              (n_gpu_layers (params chat))
              (n_threads (params chat))
              (last_n_tokens_size (params chat)) with
  | Raise e => Raise e
  | Ok client =>
    match Llama_complete client prompt (params chat) with
    | Raise e => Raise e
    | Ok answer =>
      (* [answer.get("choices", [])] *)
      let choices := default [] (completion_choices answer) in
      let full_answer :=
        if Z.of_nat (length choices) >? 0
        then
          (* [answer["choices"][0].get("text", "")] *)
          match choices with
          | c :: _ => default "" (choice_text c)
          | [] => ""
          end
        else "" in
      Ok (answer, full_answer)
    end
  end.

Definition ask_a_question (chat_id prompt : string) (u : User)
  : Coroutine string := fun w =>
  if bool_decide (chat_id ∉ chat_ids u) then (Raise unauth_error, w)
  else
    let client := redis w in
    if negb (sismember client chat_id)
    then (Raise (mk_exn ValueError "Chat does not exist"), w)
    else
      match _try_get_chat client chat_id with
      | Raise e => (Raise e, w)
      | Ok chat =>
        let history :=
          if Z.of_nat (String.length prompt) >? 0
          then history_append (id chat) (HumanMessage prompt) client
          else client in
        let prompt :=
          get_prompt (history_messages history (id chat)) (params chat)
          +:+ "### Response:" +:+ newline in
        match complete chat prompt with
        | Raise e =>
          let error := exc_str e in
          (Ok error,
           mk_world (history_append (id chat) (SystemMessage error) history)
                    (db w))
        | Ok (answer, full_answer) =>
          (* the answer is a dictionary, not a string *)
          let answer := completion_str answer in
          (Ok answer,
           mk_world (history_append (id chat) (AIMessage full_answer) history)
                    (db w))
        end
      end.

End Blocking.

(** The chat [k] is the same on two servers: its membership in the set of
    chats, its blob and its transcript. *)
Definition same_chat (k : string) (r r' : Redis) : Prop :=
  (k ∈ chats_set r' <-> k ∈ chats_set r)
  /\ chat_blob r' !! k = chat_blob r !! k
  /\ history_messages r' k = history_messages r k.

(** Two worlds have the same registry: the same database, the same set of
    chats and the same blobs. *)
Definition same_sessions {C : Collaborators} (w w' : World) : Prop :=
  db w' = db w
  /\ chats_set (redis w') = chats_set (redis w)
  /\ chat_blob (redis w') = chat_blob (redis w).

(** Every chat of the set of chats has its blob, stored under the id the
    blob carries. *)
Definition sessions_stored (r : Redis) : Prop :=
  forall k, k ∈ chats_set r ->
    exists chat, chat_blob r !! k = Some chat /\ id chat = k.

(** ** A concrete deployment

    A small instance of the collaborators, used to run the handlers on
    concrete requests: the relational store is a map from user names to
    users, a stored secret is the password behind the prefix ["hash:"], a
    token is the subject it was issued for, the only model on disk is
    ["7B"], and the engine plays back the generation of its [script]. *)

Module Demo.

Definition drop_chat (cid : string) (u : User) : User :=
  mk_user (username u) (auth u)
          (filter (fun x => chat_id x <> cid) (chats u)).

Definition add_chat (uc : UserChat) (u : User) : User :=
  mk_user (username u) (auth u) (chats u ++ [uc]).

Definition decode (token : string) : result (option string) :=
  if bool_decide (token = "garbage")
  then Raise (mk_exn JWTError "Not enough segments")
  else if bool_decide (token = "expired")
  then Raise (mk_exn JWTError "Signature has expired.")
  else if bool_decide (token = "nosub") then Ok None
  else Ok (Some token).

Definition load (model_path : string) (n_ctx : Z) (n_gpu_layers : option Z)
    (n_threads last_n_tokens_size : Z) : result string :=
  if bool_decide (model_path = "/usr/src/app/weights/7B.bin")
  then Ok model_path
  else Raise (mk_exn ValueError ("Model path does not exist: " +:+ model_path)).

Definition collaborators (script : generation) : Collaborators := {|
  Session := gmap string User;
  get_user := fun db name => db !! name;
  create_chat := fun db uc => alter (add_chat uc) (owner uc) db;
  update_user := fun db u => <[username u := u]> db;
  remove_chat := fun db uc => alter (drop_chat (chat_id uc)) (owner uc) db;
  verify_password := fun password secret =>
    bool_decide (secret = "hash:" +:+ password);
  decode_access_token := decode;
  path_exists := fun p => bool_decide (p = "/usr/src/app/weights/7B.bin");
  get_prompt := fun messages _ => foldr (fun m s => content m +:+ s) "" messages;
  LlamaClient := string;
  Llama := load;
  Llama_call := fun _ _ _ => script
|}.

(** Users. *)
Definition system_user : User :=
  mk_user "system" [mk_auth 0 ""] [].
Definition alice : User :=
  mk_user "alice" [mk_auth 1 "hash:old"; mk_auth 1 "hash:new"] [].
Definition carol : User :=
  mk_user "carol" [mk_auth 2 "key"; mk_auth 1 "hash:pw"]
          [mk_userchat "c1" "carol"; mk_userchat "c2" "carol"].

Definition users : gmap string User :=
  <["system" := system_user]> (<["alice" := alice]> (<["carol" := carol]> ∅)).

(** Chats. *)
Definition params_7B (prompt : string) : ChatParameters :=
  mk_params "7B" (1 # 10) 50 (95 # 100) 2048 2048 None 64 (13 # 10) 4 prompt.

Definition chat1 : Chat := mk_chat "c1" "carol" 100 (params_7B "X").
Definition chat2 : Chat := mk_chat "c2" "carol" 200 (params_7B "Y").

(** A server that holds [chat1] with a three-message transcript and [chat2]
    with its initial transcript. *)
Definition server : Redis :=
  mk_redis {["c1"; "c2"]}
           (<["c1" := chat1]> (<["c2" := chat2]> ∅))
           (<["c1" := [SystemMessage "X"; HumanMessage "hello";
                       AIMessage "Hi there"]]>
              (<["c2" := [SystemMessage "Y"]]> ∅)).

(** A server with no chat at all. *)
Definition empty_server : Redis := mk_redis ∅ ∅ ∅.

(** The world of a deployment whose engine plays [script]. *)
Definition world (script : generation) (r : Redis) (db : gmap string User)
  : @World (collaborators script) :=
  @mk_world (collaborators script) r db.

(** Generations the engine may play. *)
Definition answers : generation := mk_generation ["Hel"; "lo"] Exhausted.
Definition cut_short : generation :=
  mk_generation ["par"]
    (Raises (mk_exn UnicodeDecodeError
               "'utf-8' codec can't decode byte 0xe2: unexpected end of data")).
Definition breaks : generation :=
  mk_generation ["par"] (Raises (mk_exn RuntimeError "llama_decode returned 1")).
Definition asserts : generation :=
  mk_generation ["par"] (Raises (mk_exn AssertionError "")).

(** A deployment that signs its tokens: a token is its subject behind the
    letter [j], and anything else does not decode. *)
Definition sign (now : Z) (sub : string) (minutes : Z) : string :=
  String "j" sub.

Definition unsign (token : string) : result (option string) :=
  match token with
  | String "j" sub => Ok (Some sub)
  | _ => Raise (mk_exn JWTError "Not enough segments")
  end.

Definition signing : Collaborators :=
  let c := collaborators answers in {|
  Session := @Session c;
  get_user := @get_user c;
  create_chat := @create_chat c;
  update_user := @update_user c;
  remove_chat := @remove_chat c;
  verify_password := @verify_password c;
  decode_access_token := unsign;
  path_exists := @path_exists c;
  get_prompt := @get_prompt c;
  LlamaClient := @LlamaClient c;
  Llama := @Llama c;
  Llama_call := @Llama_call c
|}.

Definition login_collaborators : LoginCollaborators := {|
  create_access_token := sign;
  SESSION_EXPIRY := 60
|}.

(** [str] of a completion, as Python prints the dictionary. *)
Definition render_choice (c : Choice) : string :=
  match choice_text c with
  | Some t => "{'text': '" +:+ t +:+ "'}"
  | None => "{}"
  end.

Definition render (answer : Completion) : string :=
  match completion_choices answer with
  | Some cs => "{'choices': [" +:+ String.concat ", " (map render_choice cs) +:+ "]}"
  | None => "{}"
  end.

(** A blocking engine that answers every prompt with [outcome]. *)
Definition blocking (script : generation) (outcome : result Completion)
  : BlockingEngine (collaborators script) := {|
  Llama_complete := fun _ _ _ => outcome;
  completion_str := render
|}.

Definition greeting : Completion :=
  mk_completion (Some [mk_choice (Some "Hello"); mk_choice (Some "Hi")]).

End Demo.

(** * Properties *)

(** ** Authentication and identity *)

Section AuthProperties.
Context `{Collaborators}.

Lemma password_credential_found (l : list UserAuth) :
  1 ∈ map auth_type l → filter (fun x => auth_type x = 1) l ≠ [].
Proof.
  intros Hin Hnil.
  apply list_elem_of_fmap in Hin as (c & Hc & Hcl).
  assert (c ∈ filter (fun x => auth_type x = 1) l) as Hf
    by (apply list_elem_of_filter; auto).
  rewrite Hnil in Hf. by apply not_elem_of_nil in Hf.
Qed.

Lemma no_password_credential (l : list UserAuth) :
  1 ∉ map auth_type l → filter (fun x => auth_type x = 1) l = [].
Proof.
  intros Hnot. destruct (filter _ l) as [|c rest] eqn:Hf; [done|].
  exfalso. apply Hnot.
  assert (c ∈ filter (fun x => auth_type x = 1) l) as Hc
    by (rewrite Hf; left).
  apply list_elem_of_filter in Hc as [Hc1 Hcl].
  apply list_elem_of_fmap. eauto.
Qed.

(** C3, amended.  For a user that exists, [authenticate_user] never raises and
    grants access (returns the user) exactly when the user holds a credential
    of type 0 (passwordless), or holds a credential of type 1 and the
    submitted password verifies against the secret of the first such
    credential of the list; later password credentials are not consulted.
    A passwordless credential grants access for every submitted password,
    and a user whose credentials are all of type 2 (reserved) is never
    granted access. *)
Theorem authenticate_user_decision username password db user :
  get_user db username = Some user →
  (∃ o, authenticate_user username password db = Ok o
        ∧ (truthy o = true ↔
             0 ∈ map auth_type (auth user)
             ∨ ∃ c, head (filter (fun x => auth_type x = 1) (auth user)) = Some c
                    ∧ verify_password password (secret c) = true)
        ∧ (truthy o = true → o = ReturnsUser user))
  ∧ (0 ∈ map auth_type (auth user) →
     ∀ password', authenticate_user username password' db = Ok (ReturnsUser user))
  ∧ ((∀ c, c ∈ auth user → auth_type c = 2) →
     authenticate_user username password db = Ok ReturnsFalse).
Proof.
  intros Hget. unfold authenticate_user. rewrite Hget. cbn zeta.
  split; [|split].
  - case_bool_decide as H0.
    { eexists; split; [done|]. split; [|done]. split; auto. }
    case_bool_decide as H1.
    + destruct (filter _ (auth user)) as [|x rest] eqn:Hf.
      { by apply password_credential_found in H1. }
      destruct (verify_password password (secret x)) eqn:Hv.
      * eexists; split; [done|]. split; [|done].
        split; [|done]. intros _. right. exists x. by rewrite Hv.
      * exists ReturnsFalse. split; [by case_bool_decide|].
        split; [|done]. split; [done|].
        intros [?|(c & Hc & Hvc)]; [done|].
        cbn in Hc. congruence.
    + exists ReturnsFalse. split; [by case_bool_decide|].
      split; [|done]. split; [done|].
      intros [?|(c & Hc & _)]; [done|].
      by rewrite (no_password_credential _ H1) in Hc.
  - intros H0 password'. by rewrite bool_decide_eq_true_2.
  - intros Hall.
    assert (∀ n, n ≠ 2 → n ∉ map auth_type (auth user)) as Hnot.
    { intros n Hn Hin. apply list_elem_of_fmap in Hin as (c & -> & Hc).
      by apply Hn, Hall. }
    rewrite (bool_decide_eq_false_2 (0 ∈ _)) by (by apply Hnot).
    rewrite (bool_decide_eq_false_2 (1 ∈ _)) by (by apply Hnot).
    by case_bool_decide.
Qed.

Lemma get_current_user_raises_401 token db e :
  decoder_raises_only_JWTError →
  get_current_user token db = Raise e → e = credentials_exception.
Proof.
  intros Hdec. unfold get_current_user.
  destruct (decode_access_token token) as [[name|]|e'] eqn:Htok.
  - destruct (get_user db name); congruence.
  - congruence.
  - rewrite (Hdec _ _ Htok). congruence.
Qed.

(** C2.  [get_current_active_user] never raises: for every request it
    returns a value.  When the token cookie is absent or empty, or does not
    decode (malformed, expired), or carries no subject, or names a user the
    database does not know, the value is what the database holds for the
    user [system], and no error is propagated.  The token decoder is taken
    to raise nothing but [JWTError]. *)
Theorem get_current_active_user_never_fails request response db :
  decoder_raises_only_JWTError →
  (∃ u response',
      get_current_active_user request response db = (Ok u, response'))
  ∧ (token_rejected request db →
     fst (get_current_active_user request response db)
     = Ok (get_user db "system")).
Proof.
  intros Hdec. unfold get_current_active_user, token_rejected.
  destruct (cookies request !! "token") as [token|] eqn:Hcookie; cbn.
  2: { split; [eauto|done]. }
  case_bool_decide as Hempty; [split; [eauto|done]|].
  destruct (get_current_user token db) as [u|e] eqn:Hcur.
  - split; [eauto|].
    intros [?|[Hemp|(t & Ht & Hrej)]]; [done|congruence|].
    injection Ht as <-. exfalso. revert Hcur. unfold get_current_user.
    destruct Hrej as [[e He]|[Hnone|(name & Hname & Hnouser)]].
    + rewrite He. by destruct (is_JWTError e).
    + by rewrite Hnone.
    + by rewrite Hname, Hnouser.
  - rewrite (get_current_user_raises_401 _ _ _ Hdec Hcur). cbn.
    split; [eauto|done].
Qed.
End AuthProperties.

(** The decoder of the concrete deployment keeps the contract. *)
Lemma demo_decoder_raises_only_JWTError script :
  decoder_raises_only_JWTError (H := Demo.collaborators script).
Proof.
  intros token e. cbn. unfold Demo.decode.
  repeat case_bool_decide; intros [= <-]; reflexivity.
Qed.

(** C2 on a request whose token has expired: the caller is the system user. *)
Lemma get_current_active_user_never_fails_witness :
  fst (get_current_active_user (H := Demo.collaborators Demo.answers)
         (mk_request {["token" := "expired"]}) (mk_response []) Demo.users)
  = Ok (Some Demo.system_user).
Proof.
  destruct (get_current_active_user_never_fails
              (H := Demo.collaborators Demo.answers)
              (mk_request {["token" := "expired"]}) (mk_response [])
              Demo.users
              (demo_decoder_raises_only_JWTError Demo.answers)) as [_ Hsys].
  rewrite Hsys; [reflexivity|].
  right; right. exists "expired". split; [reflexivity|].
  left. eexists. reflexivity.
Defined.

(** C3, amended, on a user with a reserved and a password credential and the
    right password. *)
Lemma authenticate_user_decision_witness :
  authenticate_user (H := Demo.collaborators Demo.answers)
    "carol" "pw" Demo.users = Ok (ReturnsUser Demo.carol).
Proof.
  destruct (authenticate_user_decision
              (H := Demo.collaborators Demo.answers)
              "carol" "pw" Demo.users Demo.carol eq_refl)
    as [(o & Hrun & Hgrant & Huser) _].
  rewrite Hrun. f_equal. apply Huser, Hgrant.
  right. exists (mk_auth 1 "hash:pw"). split; reflexivity.
Defined.

(** C3 as stated fails: the second password credential of the user matches
    the submitted password, and access is denied, because only the first
    password credential is checked. *)
Lemma authenticate_user_later_password_counterexample :
  mk_auth 1 "hash:new" ∈ auth Demo.alice
  ∧ verify_password (Collaborators := Demo.collaborators Demo.answers)
      "new" "hash:new" = true
  ∧ authenticate_user (H := Demo.collaborators Demo.answers)
      "alice" "new" Demo.users = Ok ReturnsFalse.
Proof.
  split; [|split].
  - cbn. set_solver.
  - reflexivity.
  - reflexivity.
Qed.

(** ** Strings *)

Lemma append_empty_r (s : string) : s +:+ "" = s.
Proof.
  induction s as [|a s IH]; [done|].
  change (String a (s +:+ "") = String a s). by rewrite IH.
Qed.

Lemma append_associative (s1 s2 s3 : string) :
  (s1 +:+ s2) +:+ s3 = s1 +:+ (s2 +:+ s3).
Proof.
  induction s1 as [|a s1 IH]; [done|].
  change (String a ((s1 +:+ s2) +:+ s3) = String a (s1 +:+ (s2 +:+ s3))).
  by rewrite IH.
Qed.

Lemma concat_cons (s : string) (l : list string) :
  String.concat "" (s :: l) = s +:+ String.concat "" l.
Proof.
  destruct l as [|t l]; [|done].
  cbn [String.concat]. by rewrite append_empty_r.
Qed.

(** ** The message history *)

Section HistoryProperties.
Context `{Collaborators}.

Lemma history_messages_append (k k' : string) (m : Message) (r : Redis) :
  history_messages (history_append k m r) k'
  = if decide (k = k') then history_messages r k ++ [m]
    else history_messages r k'.
Proof.
  unfold history_messages at 1, history_append. cbn.
  rewrite lookup_insert. by destruct (decide (k = k')).
Qed.

Lemma history_messages_clear (k k' : string) (r : Redis) :
  history_messages (history_clear k r) k'
  = if decide (k = k') then [] else history_messages r k'.
Proof.
  unfold history_messages, history_clear. cbn.
  rewrite lookup_delete. by destruct (decide (k = k')).
Qed.

Lemma history_messages_replay (k k' : string) (l : list Message) (r : Redis) :
  history_messages (foldl (fun h m => history_append k m h) r l) k'
  = if decide (k = k') then history_messages r k ++ l
    else history_messages r k'.
Proof.
  revert r. induction l as [|m l IH]; intros r; cbn.
  - destruct (decide (k = k')) as [->|]; [by rewrite app_nil_r|done].
  - rewrite IH, !history_messages_append.
    destruct (decide (k = k')) as [->|]; [|done].
    rewrite decide_True by done. by rewrite <- app_assoc.
Qed.

Lemma replay_keeps_chats (k : string) (l : list Message) (r : Redis) :
  chats_set (foldl (fun h m => history_append k m h) r l) = chats_set r
  ∧ chat_blob (foldl (fun h m => history_append k m h) r l) = chat_blob r.
Proof.
  revert r. induction l as [|m l IH]; intros r; cbn; [done|].
  by destruct (IH (history_append k m r)) as [-> ->].
Qed.

End HistoryProperties.

(** ** Streaming generation *)

Section StreamProperties.
Context `{Collaborators}.

Lemma loop_outputs (g : generator_state) (frags : list string) :
  foldl on_output g frags
  = mk_gen (full_answer g +:+ String.concat "" frags) (error g)
           (yielded g ++ map EvMessage frags).
Proof.
  revert g. induction frags as [|txt frags IH]; intros g.
  - cbn. rewrite append_empty_r, app_nil_r. by destruct g.
  - cbn [foldl]. rewrite IH, concat_cons. cbn.
    by rewrite append_associative, <- app_assoc.
Qed.

(** What the generator does, by the way the engine ends. *)
Lemma event_generator_cases client prompt chat history :
  let output := Llama_call client prompt (params chat) in
  let messages := map EvMessage (fragments output) in
  let text := String.concat "" (fragments output) in
  event_generator client prompt chat history =
  match ending output with
  | Exhausted =>
    (messages ++ [EvClose], history_append (id chat) (AIMessage text) history)
  | Raises e =>
    if type_is_UnicodeDecodeError e
    then (messages ++ [EvClose],
          history_append (id chat) (AIMessage text) history)
    else (messages ++ [EvError; EvClose],
          if bool_decide (exc_str e = "")
          then history_append (id chat) (AIMessage text) history
          else history_append (id chat) (SystemMessage (exc_str e)) history)
  end.
Proof.
  cbn zeta. unfold event_generator. rewrite loop_outputs. cbn.
  destruct (ending _) as [|e]; cbn; [done|].
  destruct (type_is_UnicodeDecodeError e); cbn; [done|].
  rewrite <- app_assoc. by case_bool_decide.
Qed.

Lemma event_generator_events client prompt chat history :
  let output := Llama_call client prompt (params chat) in
  ∃ tail,
    fst (event_generator client prompt chat history)
    = map EvMessage (fragments output) ++ tail ++ [EvClose]
    ∧ (tail = [] ∨ tail = [EvError])
    ∧ (tail = [EvError] ↔
       ∃ e, ending output = Raises e ∧ type_is_UnicodeDecodeError e = false).
Proof.
  cbn zeta. rewrite event_generator_cases. cbn zeta.
  destruct (ending _) as [|e].
  - exists []. split; [done|]. split; [by left|].
    split; [done|]. by intros (e & ? & _).
  - destruct (type_is_UnicodeDecodeError e) eqn:He.
    + exists []. split; [done|]. split; [by left|].
      split; [done|]. intros (e' & [= <-] & ?). congruence.
    + exists [EvError]. split; [done|]. split; [by right|].
      split; [eauto|done].
Qed.

(** C1, amended.  The events of a streaming generation are the message
    events of the fragments, in the order of production, then an error event
    exactly when fragment production raised an exception whose type is not
    [UnicodeDecodeError], then one close event.  The close event always ends
    the stream, also after an error event.  Every event stream that
    [stream_ask_a_question] responds with has this shape. *)
Theorem event_generator_stream_shape :
  (∀ client prompt chat history,
      let output := Llama_call client prompt (params chat) in
      ∃ tail,
        fst (event_generator client prompt chat history)
        = map EvMessage (fragments output) ++ tail ++ [EvClose]
        ∧ (tail = [] ∨ tail = [EvError])
        ∧ (tail = [EvError] ↔
           ∃ e, ending output = Raises e
                ∧ type_is_UnicodeDecodeError e = false))
  ∧ (∀ chat_id prompt u w,
      match fst (stream_ask_a_question chat_id prompt u w) with
      | Ok (EventSourceResponse events) =>
        ∃ frags tail,
          events = map EvMessage frags ++ tail ++ [EvClose]
          ∧ (tail = [] ∨ tail = [EvError])
      | Ok ErrorDict | Raise _ => True
      end).
Proof.
  split; [apply event_generator_events|].
  intros chat_id prompt u w. unfold stream_ask_a_question.
  case_bool_decide; [done|].
  destruct (negb _); [done|].
  destruct (_try_get_chat _ _) as [chat|e]; [|done].
  destruct (Llama _ _ _ _ _) as [client|e]; [|by destruct (is_ValueError e)].
  match goal with
  | |- context [event_generator ?c ?p ?ch ?h] =>
    destruct (event_generator_events c p ch h) as (tail & Hevents & Htail & _);
    destruct (event_generator c p ch h) as [events after]
  end.
  cbn in *. eauto.
Qed.

(** C10.  When fragment production ends with a [UnicodeDecodeError], the
    stream is the message events of the fragments produced so far and one
    close event, with no error event; the transcript gains one message, the
    assistant message that concatenates those fragments, and no diagnostic;
    and the generator does exactly what it does when the engine produces the
    same fragments and is exhausted. *)
Theorem event_generator_absorbs_UnicodeDecodeError
    client prompt chat history e :
  ending (Llama_call client prompt (params chat)) = Raises e →
  type_is_UnicodeDecodeError e = true →
  let frags := fragments (Llama_call client prompt (params chat)) in
  let after := snd (event_generator client prompt chat history) in
  fst (event_generator client prompt chat history)
  = map EvMessage frags ++ [EvClose]
  ∧ history_messages after (id chat)
    = history_messages history (id chat) ++ [AIMessage (String.concat "" frags)]
  ∧ ∀ client' prompt',
      fragments (Llama_call client' prompt' (params chat)) = frags →
      ending (Llama_call client' prompt' (params chat)) = Exhausted →
      event_generator client' prompt' chat history
      = event_generator client prompt chat history.
Proof.
  intros Hend He. cbn zeta. rewrite !event_generator_cases. cbn zeta.
  rewrite Hend, He. cbn. split; [done|]. split.
  - rewrite history_messages_append. by rewrite decide_True.
  - intros client' prompt' Hfrags Hend'.
    rewrite event_generator_cases. cbn zeta. by rewrite Hend', Hfrags.
Qed.

End StreamProperties.

(** C1 as stated fails: when the engine raises a [RuntimeError] after one
    fragment, the stream carries an error event and then a close event; it
    is the stream [stream_ask_a_question] responds with. *)
Lemma event_generator_error_then_close_counterexample :
  let events :=
    fst (event_generator (H := Demo.collaborators Demo.breaks)
           "/usr/src/app/weights/7B.bin" "X### Response:" Demo.chat1
           Demo.server) in
  events = [EvMessage "par"; EvError; EvClose]
  ∧ EvError ∈ events ∧ EvClose ∈ events
  ∧ fst (stream_ask_a_question "c2" "hi" Demo.carol
           (Demo.world Demo.breaks Demo.server Demo.users))
    = Ok (EventSourceResponse [EvMessage "par"; EvError; EvClose]).
Proof.
  cbn zeta. split; [reflexivity|].
  split; [|split]; vm_compute; [apply elem_of_cons; right| |reflexivity];
    repeat constructor.
Qed.

(** C10 on a generation cut short inside a multi-byte character. *)
Lemma event_generator_absorbs_UnicodeDecodeError_witness :
  fst (event_generator (H := Demo.collaborators Demo.cut_short)
         "/usr/src/app/weights/7B.bin" "X### Response:" Demo.chat2
         Demo.server)
  = [EvMessage "par"; EvClose].
Proof.
  destruct (event_generator_absorbs_UnicodeDecodeError
              (H := Demo.collaborators Demo.cut_short)
              "/usr/src/app/weights/7B.bin" "X### Response:" Demo.chat2
              Demo.server
              (mk_exn UnicodeDecodeError
                 "'utf-8' codec can't decode byte 0xe2: unexpected end of data")
              eq_refl eq_refl) as (Hevents & _ & _).
  exact Hevents.
Defined.

(** ** Truncation *)

Section TruncationProperties.
Context `{Collaborators}.

Lemma slice_to_nonneg {A : Type} (l : list A) (idx : Z) :
  0 ≤ idx → slice_to l idx = take (Z.to_nat idx) l.
Proof. intros Hidx. unfold slice_to. by rewrite (proj2 (Z.leb_le 0 idx) Hidx). Qed.

(** On an owned chat and an index that is not negative, [delete_prompt]
    raises the 202 exception when the index is at least the length of the
    transcript, and otherwise succeeds and leaves the first [idx] messages. *)
Theorem delete_prompt_nonneg chat_id idx u w :
  chat_id ∈ chat_ids u →
  0 ≤ idx →
  let before := history_messages (redis w) chat_id in
  (Z.of_nat (length before) ≤ idx →
   delete_prompt chat_id idx u w
   = (Raise (mk_exn (HTTPException 202)
               "Unable to delete message, chat in progress"), w))
  ∧ (idx < Z.of_nat (length before) →
     ∃ w', delete_prompt chat_id idx u w = (Ok true, w')
           ∧ history_messages (redis w') chat_id = take (Z.to_nat idx) before).
Proof.
  intros Hown Hidx. cbn zeta. unfold delete_prompt.
  rewrite bool_decide_eq_false_2 by (by intros ?).
  split; intros Hlen.
  - by rewrite (proj2 (Z.geb_le _ _) Hlen).
  - destruct (Z.geb_spec idx (Z.of_nat (length (history_messages (redis w) chat_id))));
      [lia|].
    eexists; split; [done|]. cbn.
    rewrite history_messages_replay, decide_True by done.
    rewrite history_messages_clear, decide_True by done.
    by rewrite slice_to_nonneg.
Qed.

End TruncationProperties.

(** [delete_prompt] with index 1 on a transcript of three messages. *)
Lemma delete_prompt_nonneg_witness :
  history_messages
    (redis (snd (delete_prompt "c1" 1 Demo.carol
                   (Demo.world Demo.answers Demo.server Demo.users)))) "c1"
  = [SystemMessage "X"].
Proof.
  destruct (delete_prompt_nonneg (H := Demo.collaborators Demo.answers)
              "c1" 1 Demo.carol
              (Demo.world Demo.answers Demo.server Demo.users))
    as [_ Htake].
  - cbn. apply elem_of_cons. by left.
  - lia.
  - destruct Htake as (w' & Hrun & Hkept); [by vm_compute|].
    rewrite Hrun. exact Hkept.
Defined.

(** C5 fails on the code: on a transcript of three messages, [delete_prompt]
    with index -1 succeeds and leaves the first two messages, and with index
    -5 it succeeds and leaves none. *)
Theorem delete_prompt_negative_index :
  let w := Demo.world Demo.answers Demo.server Demo.users in
  history_messages (redis w) "c1"
  = [SystemMessage "X"; HumanMessage "hello"; AIMessage "Hi there"]
  ∧ fst (delete_prompt "c1" (-1) Demo.carol w) = Ok true
  ∧ history_messages (redis (snd (delete_prompt "c1" (-1) Demo.carol w))) "c1"
    = [SystemMessage "X"; HumanMessage "hello"]
  ∧ fst (delete_prompt "c1" (-5) Demo.carol w) = Ok true
  ∧ history_messages (redis (snd (delete_prompt "c1" (-5) Demo.carol w))) "c1"
    = [].
Proof. cbn zeta. repeat split; vm_compute; reflexivity. Qed.

(** ** Deletion *)

Section DeletionProperties.
Context `{Collaborators}.

(** C6, amended.  [delete_chat] on an owned chat that is in the set of chats
    succeeds and leaves no transcript, no blob and no membership for the id.
    It is not idempotent: a second call on the same id, by any caller, raises
    (the 401 exception when the id is not among the chats of the caller,
    the [ValueError] of a chat that does not exist otherwise) and changes
    nothing. *)
Theorem delete_chat_once chat_id u w :
  chat_id ∈ chat_ids u →
  sismember (redis w) chat_id = true →
  ∃ w1, delete_chat chat_id u w = (Ok true, w1)
    ∧ message_store (redis w1) !! chat_id = None
    ∧ redis_get (redis w1) chat_id = None
    ∧ sismember (redis w1) chat_id = false
    ∧ ∀ u',
        (chat_id ∉ chat_ids u' →
         delete_chat chat_id u' w1 = (Raise unauth_error, w1))
        ∧ (chat_id ∈ chat_ids u' →
           delete_chat chat_id u' w1
           = (Raise (mk_exn ValueError "Chat does not exist"), w1)).
Proof.
  intros Hown Hmember. unfold delete_chat at 1.
  rewrite bool_decide_eq_false_2 by (by intros ?).
  rewrite Hmember. cbn. eexists; split; [done|]. cbn.
  assert (sismember
            (srem (redis_delete (history_clear chat_id (redis w)) chat_id)
                  chat_id) chat_id = false) as Hgone.
  { unfold sismember, srem. cbn. apply bool_decide_eq_false_2.
    rewrite elem_of_difference, elem_of_singleton. by intros [_ ?]. }
  split; [apply lookup_delete_eq|].
  split; [unfold redis_get; cbn; apply lookup_delete_eq|].
  split; [done|].
  intros u'. unfold delete_chat. cbn. split.
  - intros Hnot. by rewrite bool_decide_eq_true_2.
  - intros Hin. rewrite bool_decide_eq_false_2 by (by intros ?).
    by rewrite Hgone.
Qed.

(** [delete_all_chats] returns [True] and changes nothing, for every user and
    every world: the coroutines of [delete_chat] are built and never run. *)
Lemma delete_all_chats_no_effect u w : delete_all_chats u w = (Ok true, w).
Proof. reflexivity. Qed.

End DeletionProperties.

(** C6 as stated fails: after a first deletion succeeds, the second one on
    the same id raises, both for the caller read again from the database
    (the 401 exception) and for the caller as resolved before (the
    [ValueError]). *)
Lemma delete_chat_twice_counterexample :
  let w := Demo.world Demo.answers Demo.server Demo.users in
  let w1 := snd (delete_chat "c1" Demo.carol w) in
  let carol1 := mk_user "carol" (auth Demo.carol) [mk_userchat "c2" "carol"] in
  fst (delete_chat "c1" Demo.carol w) = Ok true
  ∧ get_user (db w1) "carol" = Some carol1
  ∧ fst (delete_chat "c1" carol1 w1) = Raise unauth_error
  ∧ fst (delete_chat "c1" Demo.carol w1)
    = Raise (mk_exn ValueError "Chat does not exist").
Proof. cbn zeta. repeat split; vm_compute; reflexivity. Qed.

(** C6, amended, on a stored chat of its owner. *)
Lemma delete_chat_once_witness :
  let w := Demo.world Demo.answers Demo.server Demo.users in
  sismember (redis (snd (delete_chat "c1" Demo.carol w))) "c1" = false.
Proof.
  cbn zeta.
  destruct (delete_chat_once (H := Demo.collaborators Demo.answers)
              "c1" Demo.carol (Demo.world Demo.answers Demo.server Demo.users))
    as (w1 & Hrun & _ & _ & Hgone & _).
  - cbn. set_solver.
  - reflexivity.
  - by rewrite Hrun.
Defined.

(** C8 fails on the code: on a user who owns two stored chats,
    [delete_all_chats] returns [True] and the first chat keeps its chat
    reference, its membership, its blob and its transcript; awaiting
    [delete_chat] on the same chat does remove it. *)
Theorem delete_all_chats_deletes_nothing :
  let w := Demo.world Demo.answers Demo.server Demo.users in
  let after := snd (delete_all_chats Demo.carol w) in
  fst (delete_all_chats Demo.carol w) = Ok true
  ∧ get_user (db after) "carol" = Some Demo.carol
  ∧ sismember (redis after) "c1" = true
  ∧ redis_get (redis after) "c1" = Some Demo.chat1
  ∧ history_messages (redis after) "c1"
    = [SystemMessage "X"; HumanMessage "hello"; AIMessage "Hi there"]
  ∧ sismember (redis (snd (await (delete_chat "c1" Demo.carol) w))) "c1" = false.
Proof. cbn zeta. repeat split; vm_compute; reflexivity. Qed.

(** ** Listing *)

Section ListingProperties.
Context `{Collaborators}.

Lemma insert_reverse_perm {A : Type} (key : A → Z) (x : A) (l : list A) :
  insert_reverse key x l ≡ₚ x :: l.
Proof.
  induction l as [|y l IH]; cbn; [done|].
  destruct (key y <=? key x); [done|].
  rewrite IH. apply perm_swap.
Qed.

Lemma sorted_reverse_perm {A : Type} (key : A → Z) (xs : list A) :
  sorted_reverse key xs ≡ₚ xs.
Proof.
  induction xs as [|x xs IH]; cbn; [done|].
  fold (sorted_reverse key xs). by rewrite insert_reverse_perm, IH.
Qed.

Lemma insert_reverse_sorted {A : Type} (key : A → Z) (x : A) (l : list A) :
  StronglySorted (fun a b => key b ≤ key a) l →
  StronglySorted (fun a b => key b ≤ key a) (insert_reverse key x l).
Proof.
  induction 1 as [|y l Hl IH Hy]; cbn.
  - repeat constructor.
  - destruct (Z.leb_spec (key y) (key x)) as [Hle|Hlt].
    + constructor; [by constructor|].
      constructor; [done|].
      eapply Forall_impl; [exact Hy|]. cbn. intros z Hz. lia.
    + constructor; [done|].
      rewrite insert_reverse_perm. constructor; [lia|done].
Qed.

Lemma sorted_reverse_sorted {A : Type} (key : A → Z) (xs : list A) :
  StronglySorted (fun a b => key b ≤ key a) (sorted_reverse key xs).
Proof.
  induction xs as [|x xs IH]; cbn; [constructor|].
  by apply insert_reverse_sorted.
Qed.

Lemma collect_summaries (l : list ChatDict) (res : list Summary) :
  foldl (fun res chat => res ++ [summary_of chat]) res l
  = res ++ map summary_of l.
Proof.
  revert res. induction l as [|d l IH]; intros res; cbn.
  - by rewrite app_nil_r.
  - by rewrite IH, <- app_assoc.
Qed.

Lemma await_each_fetches u w (l : list UserChat) :
  owned_chats_stored u (redis w) →
  l ⊆ chats u →
  ∃ fetched,
    await_each (fun x => get_specific_chat (chat_id x) u) l w = (Ok fetched, w)
    ∧ Forall2 (fetched_from (redis w)) l fetched.
Proof.
  intros Hstored. induction l as [|x l IH]; intros Hsub.
  - exists []. by split; [|constructor].
  - destruct IH as (fetched & Hrun & Hall).
    { intros y Hy. apply Hsub. by right. }
    assert (x ∈ chats u) as Hx by (apply Hsub; left).
    destruct (Hstored x Hx) as (Hmember & chat & Hblob & Hid).
    exists (mk_chatdict chat (history_messages (redis w) (id chat)) :: fetched).
    cbn [await_each]. unfold await, get_specific_chat at 1, _try_get_chat.
    rewrite bool_decide_eq_false_2
      by (intros Hnot; apply Hnot, list_elem_of_fmap; eauto).
    unfold sismember, redis_get.
    rewrite bool_decide_eq_true_2 by done. cbn. rewrite Hblob.
    unfold await in Hrun. rewrite Hrun. split; [done|].
    constructor; [|done]. unfold fetched_from, redis_get. cbn.
    by rewrite Hid.
Qed.

(** C9.  For a user whose chat references all have their session on the
    server, [get_all_chats] returns one summary per owned chat, ordered by
    [created] descending; each summary carries the creation time and the
    model of its chat, and its subtitle is the content of the last message
    of the transcript, or the empty string when the transcript is empty. *)
Theorem get_all_chats_summaries u w :
  owned_chats_stored u (redis w) →
  ∃ res,
    get_all_chats u w = (Ok res, w)
    ∧ map s_id res ≡ₚ chat_ids u
    ∧ StronglySorted (fun a b => s_created b ≤ s_created a) res
    ∧ ∀ s, s ∈ res →
        ∃ chat, redis_get (redis w) (s_id s) = Some chat
          ∧ s_created s = created chat
          ∧ s_model s = model_path (params chat)
          ∧ s_subtitle s
            = match last (history_messages (redis w) (s_id s)) with
              | Some m => content m
              | None => ""
              end.
Proof.
  intros Hstored.
  destruct (await_each_fetches u w (chats u) Hstored) as (fetched & Hrun & Hall);
    [done|].
  unfold get_all_chats. rewrite Hrun. rewrite collect_summaries. cbn [app].
  eexists; split; [done|].
  set (key := fun x : ChatDict => created (cd_chat x)).
  split; [|split].
  - rewrite map_map. cbn.
    transitivity (map (fun d => id (cd_chat d)) fetched).
    { apply (fmap_Permutation (fun d => id (cd_chat d))), sorted_reverse_perm. }
    unfold chat_ids. clear Hrun.
    induction Hall as [|x d l k (Hid & _) _ IH]; cbn; [done|].
    by rewrite Hid, IH.
  - apply (StronglySorted_fmap summary_of (fun a b => key b ≤ key a));
      [done|apply sorted_reverse_sorted].
  - intros s Hs. apply list_elem_of_fmap in Hs as (d & -> & Hd).
    rewrite sorted_reverse_perm in Hd.
    apply list_elem_of_lookup in Hd as (i & Hi).
    destruct (Forall2_lookup_r _ _ _ _ _ Hall Hi) as (x & _ & Hid & Hblob & Hhist).
    exists (cd_chat d). cbn. rewrite Hid, Hhist. by split.
Qed.

End ListingProperties.

(** C9 on a user with two chats, created at 100 and at 200: the later chat
    comes first. *)
Lemma get_all_chats_summaries_witness :
  fst (get_all_chats Demo.carol (Demo.world Demo.answers Demo.server Demo.users))
  = Ok [mk_summary "c2" 200 "7B" "Y"; mk_summary "c1" 100 "7B" "Hi there"].
Proof.
  destruct (get_all_chats_summaries (H := Demo.collaborators Demo.answers)
              Demo.carol (Demo.world Demo.answers Demo.server Demo.users))
    as (res & Hrun & _).
  - intros x Hx. cbn in Hx.
    apply elem_of_cons in Hx as [->|Hx]; [|apply list_elem_of_singleton in Hx as ->].
    + split; [cbn; set_solver|]. exists Demo.chat1. by split.
    + split; [cbn; set_solver|]. exists Demo.chat2. by split.
  - rewrite Hrun. cbn. injection Hrun as <-. reflexivity.
Defined.

(** ** The transcript after a streaming generation *)

Section GenerationProperties.
Context `{Collaborators}.

Lemma prompt_is_empty (prompt : string) :
  (Z.of_nat (String.length prompt) >? 0) = negb (bool_decide (prompt = "")).
Proof. by destruct prompt. Qed.

(** The transcript after a streaming request on an owned, stored chat: the
    human message is appended exactly when the prompt is not empty, and then
    one message more, the assistant message that concatenates the fragments
    when the engine is exhausted or ends with a [UnicodeDecodeError], the
    system message with the error text when production raises another
    exception with a text that is not empty, or when the constructor of the
    engine raises a [ValueError]; when the constructor raises another
    exception nothing more is appended. *)
Theorem stream_ask_a_question_transcript chat_id prompt u w chat :
  chat_id ∈ chat_ids u →
  sismember (redis w) chat_id = true →
  redis_get (redis w) chat_id = Some chat →
  id chat = chat_id →
  let before := history_messages (redis w) chat_id in
  let asked := if bool_decide (prompt = "") then [] else [HumanMessage prompt] in
  let after :=
    history_messages
      (redis (snd (stream_ask_a_question chat_id prompt u w))) chat_id in
  match Llama (weights (model_path (params chat)))
              (Z.of_nat (String.length (init_prompt (params chat)))
               + n_ctx (params chat))
              (n_gpu_layers (params chat)) (n_threads (params chat))
              (last_n_tokens_size (params chat)) with
  | Raise e =>
    if is_ValueError e
    then after = before ++ asked ++ [SystemMessage (exc_str e)]
    else after = before ++ asked
  | Ok client =>
    let output :=
      Llama_call client
        (get_prompt (before ++ asked) (params chat)
         +:+ "### Response:" +:+ newline) (params chat) in
    let text := String.concat "" (fragments output) in
    match ending output with
    | Exhausted => after = before ++ asked ++ [AIMessage text]
    | Raises e =>
      if type_is_UnicodeDecodeError e
      then after = before ++ asked ++ [AIMessage text]
      else exc_str e ≠ "" →
           after = before ++ asked ++ [SystemMessage (exc_str e)]
    end
  end.
Proof.
  intros Hown Hmember Hblob Hid. cbn zeta.
  unfold stream_ask_a_question, _try_get_chat.
  rewrite (bool_decide_eq_false_2 (chat_id ∉ chat_ids u)) by (by intros ?).
  rewrite Hmember. cbn [negb]. rewrite Hblob, prompt_is_empty, Hid.
  set (history := if negb _ then _ else _).
  assert (history_messages history chat_id
          = history_messages (redis w) chat_id
            ++ (if bool_decide (prompt = "") then [] else [HumanMessage prompt]))
    as Hasked.
  { subst history. case_bool_decide; cbn.
    - by rewrite app_nil_r.
    - rewrite history_messages_append. by rewrite decide_True. }
  assert (∀ m, history_messages (history_append chat_id m history) chat_id
               = history_messages (redis w) chat_id
                 ++ (if bool_decide (prompt = "") then []
                     else [HumanMessage prompt]) ++ [m]) as Hone.
  { intros m. rewrite history_messages_append, decide_True by done.
    by rewrite Hasked, <- app_assoc. }
  rewrite Hasked.
  destruct (Llama _ _ _ _ _) as [client|e].
  - rewrite event_generator_cases. cbn zeta. rewrite Hid.
    destruct (ending _) as [|e]; cbn; [apply Hone|].
    destruct (type_is_UnicodeDecodeError e); cbn; [apply Hone|].
    intros Htext. rewrite bool_decide_eq_false_2 by done. apply Hone.
  - destruct (is_ValueError e); cbn; [apply Hone|done].
Qed.

End GenerationProperties.

(** The transcript after a generation that breaks with an error text. *)
Lemma stream_ask_a_question_transcript_witness :
  history_messages
    (redis (snd (stream_ask_a_question "c2" "hi" Demo.carol
                   (Demo.world Demo.breaks Demo.server Demo.users)))) "c2"
  = [SystemMessage "Y"; HumanMessage "hi";
     SystemMessage "llama_decode returned 1"].
Proof.
  pose proof (stream_ask_a_question_transcript
                (H := Demo.collaborators Demo.breaks)
                "c2" "hi" Demo.carol
                (Demo.world Demo.breaks Demo.server Demo.users) Demo.chat2)
    as Hrun.
  cbn zeta in Hrun. apply Hrun.
  - cbn. apply elem_of_cons. right. apply list_elem_of_singleton. reflexivity.
  - reflexivity.
  - reflexivity.
  - reflexivity.
  - discriminate.
Defined.

(** C4 fails on the code: when production raises, after one fragment, an
    exception whose text is empty, the stream carries the error event and
    the transcript gains the human message and then the streamed text as an
    assistant message, not a system diagnostic. *)
Theorem stream_ask_a_question_empty_error_text :
  let w := Demo.world Demo.asserts Demo.server Demo.users in
  let after := snd (stream_ask_a_question "c2" "hi" Demo.carol w) in
  history_messages (redis w) "c2" = [SystemMessage "Y"]
  ∧ fst (stream_ask_a_question "c2" "hi" Demo.carol w)
    = Ok (EventSourceResponse [EvMessage "par"; EvError; EvClose])
  ∧ history_messages (redis after) "c2"
    = [SystemMessage "Y"; HumanMessage "hi"; AIMessage "par"].
Proof. cbn zeta. repeat split; vm_compute; reflexivity. Qed.

(** ** The first message of a transcript *)

Section TranscriptProperties.
Context `{Collaborators}.

(** A streaming request only appends to transcripts. *)
Lemma stream_ask_a_question_appends chat_id prompt u w k :
  ∃ added,
    history_messages (redis (snd (stream_ask_a_question chat_id prompt u w))) k
    = history_messages (redis w) k ++ added.
Proof.
  unfold stream_ask_a_question.
  case_bool_decide; [exists []; by rewrite app_nil_r|].
  destruct (sismember (redis w) chat_id); cbn [negb];
    [|exists []; by rewrite app_nil_r].
  destruct (_try_get_chat (redis w) chat_id) as [chat|e];
    [|exists []; by rewrite app_nil_r].
  set (history := if Z.of_nat (String.length prompt) >? 0 then _ else _).
  assert (∃ asked, history_messages history k
                   = history_messages (redis w) k ++ asked) as [asked Hasked].
  { subst history. destruct (_ >? 0).
    - rewrite history_messages_append. destruct (decide (id chat = k)) as [->|].
      + by eexists.
      + exists []. by rewrite app_nil_r.
    - exists []. by rewrite app_nil_r. }
  destruct (Llama _ _ _ _ _) as [client|e].
  - rewrite event_generator_cases. cbn zeta.
    assert (∀ m, ∃ added,
               history_messages (history_append (id chat) m history) k
               = history_messages (redis w) k ++ added) as Hone.
    { intros m. rewrite history_messages_append.
      destruct (decide (id chat = k)) as [->|].
      - rewrite Hasked, <- app_assoc. by eexists.
      - by eexists. }
    destruct (ending _) as [|e]; cbn; [apply Hone|].
    destruct (type_is_UnicodeDecodeError e); cbn; [apply Hone|].
    case_bool_decide; apply Hone.
  - destruct (is_ValueError e); cbn; [|by eexists].
    rewrite history_messages_append.
    destruct (decide (id chat = k)) as [->|].
    + rewrite Hasked, <- app_assoc. by eexists.
    + by eexists.
Qed.

(** C7, amended.  When the model exists and the new id has no transcript yet,
    [create_new_chat] succeeds and the transcript of the new chat is exactly
    one system message whose content is the [init_prompt].  From any world
    in which the transcript starts with that message, a streaming generation
    on any chat and a [delete_prompt] with an index of at least 1 on any chat
    leave it the first message of the transcript. *)
Theorem create_new_chat_first_message
    u model temperature top_k top_p max_length context_window gpu_layers
    repeat_last_n repeat_penalty init_prompt n_threads new_id now w :
  path_exists (weights model) = true →
  history_messages (redis w) new_id = [] →
  (∃ w', create_new_chat u model temperature top_k top_p max_length
           context_window gpu_layers repeat_last_n repeat_penalty init_prompt
           n_threads new_id now w = (Ok new_id, w')
         ∧ history_messages (redis w') new_id = [SystemMessage init_prompt])
  ∧ ∀ w2 rest,
      history_messages (redis w2) new_id = SystemMessage init_prompt :: rest →
      (∀ chat_id prompt u2, ∃ rest',
          history_messages
            (redis (snd (stream_ask_a_question chat_id prompt u2 w2))) new_id
          = SystemMessage init_prompt :: rest')
      ∧ (∀ chat_id idx u2, 1 ≤ idx → ∃ rest',
          history_messages (redis (snd (delete_prompt chat_id idx u2 w2))) new_id
          = SystemMessage init_prompt :: rest').
Proof.
  intros Hmodel Hfresh. split.
  - unfold create_new_chat. rewrite Hmodel. cbn.
    eexists; split; [done|].
    unfold sadd, history_messages at 1. cbn. rewrite lookup_insert_eq. cbn.
    unfold redis_set, history_messages in *. cbn. by rewrite Hfresh.
  - intros w2 rest Hfirst. split.
    + intros chat_id prompt u2.
      destruct (stream_ask_a_question_appends chat_id prompt u2 w2 new_id)
        as [added ->].
      rewrite Hfirst. by eexists.
    + intros chat_id idx u2 Hidx. unfold delete_prompt.
      case_bool_decide; [by eexists|].
      destruct (idx >=? _) eqn:Hlen; [by eexists|]. cbn.
      rewrite history_messages_replay.
      destruct (decide (chat_id = new_id)) as [->|Hother].
      * rewrite history_messages_clear, decide_True by done.
        rewrite slice_to_nonneg by lia. rewrite Hfirst. cbn.
        destruct (Z.to_nat idx) as [|n] eqn:Hn; [lia|].
        cbn. by eexists.
      * rewrite history_messages_clear, decide_False by done.
        by eexists.
Qed.

End TranscriptProperties.

(** C7, amended, on a new chat of the concrete deployment. *)
Lemma create_new_chat_first_message_witness :
  let w := Demo.world Demo.answers Demo.empty_server Demo.users in
  history_messages
    (redis (snd (create_new_chat Demo.alice "7B" (1 # 10) 50 (95 # 100) 2048
                   2048 None 64 (13 # 10) "X" 4 "c9" 300 w))) "c9"
  = [SystemMessage "X"].
Proof.
  cbn zeta.
  destruct (create_new_chat_first_message
              (H := Demo.collaborators Demo.answers)
              Demo.alice "7B" (1 # 10) 50 (95 # 100) 2048 2048 None 64
              (13 # 10) "X" 4 "c9" 300
              (Demo.world Demo.answers Demo.empty_server Demo.users)
              eq_refl eq_refl) as [(w' & Hrun & Hfirst) _].
  by rewrite Hrun.
Defined.

(** C7 as stated fails: [delete_prompt] with index 0 on a chat just created
    succeeds and leaves the chat, still in the set of chats, with an empty
    transcript, which does not start with the system message. *)
Lemma truncate_to_empty_counterexample :
  let w := Demo.world Demo.answers Demo.empty_server Demo.users in
  let w1 := snd (create_new_chat Demo.alice "7B" (1 # 10) 50 (95 # 100) 2048
                   2048 None 64 (13 # 10) "X" 4 "c9" 300 w) in
  let alice1 := mk_user "alice" (auth Demo.alice) [mk_userchat "c9" "alice"] in
  let w2 := snd (delete_prompt "c9" 0 alice1 w1) in
  get_user (db w1) "alice" = Some alice1
  ∧ history_messages (redis w1) "c9" = [SystemMessage "X"]
  ∧ fst (delete_prompt "c9" 0 alice1 w1) = Ok true
  ∧ sismember (redis w2) "c9" = true
  ∧ history_messages (redis w2) "c9" = [].
Proof. cbn zeta. repeat split; vm_compute; reflexivity. Qed.

(** ** Login and the resolution of tokens *)

Section LoginProperties.
Context {C : Collaborators} {L : LoginCollaborators}.

Lemma authenticate_user_returns username password db :
  ∃ o, authenticate_user username password db = Ok o
       ∧ ∀ user, o = ReturnsUser user → get_user db username = Some user.
Proof.
  unfold authenticate_user.
  destruct (get_user db username) as [user|]; [|by eexists].
  cbn zeta. case_bool_decide; [eexists; split; [done|]; by intros ? [= ->]|].
  case_bool_decide as H1.
  - destruct (filter _ (auth user)) as [|x rest] eqn:Hf.
    { by apply password_credential_found in H1. }
    destruct (verify_password password (secret x)).
    + eexists; split; [done|]. by intros ? [= ->].
    + exists ReturnsFalse. by case_bool_decide.
  - exists ReturnsFalse. by case_bool_decide.
Qed.

(** Every way [get_current_user] fails is the same 401 exception, whether
    the token does not decode, carries no subject or names an unknown user;
    it returns a user exactly when the token decodes to the name of a user
    of the database, and then it returns that user.  The token decoder is
    taken to raise nothing but [JWTError]. *)
Theorem get_current_user_outcome token db :
  decoder_raises_only_JWTError →
  (∀ user, get_current_user token db = Ok user ↔
           ∃ name, decode_access_token token = Ok (Some name)
                   ∧ get_user db name = Some user)
  ∧ (∀ e, get_current_user token db = Raise e → e = credentials_exception).
Proof.
  intros Hdec. split.
  - intros user. unfold get_current_user.
    destruct (decode_access_token token) as [[name|]|e] eqn:Htok.
    + destruct (get_user db name) as [user'|] eqn:Huser.
      * split; [intros [= ->]; eauto|].
        intros (n & [= <-] & Hn). congruence.
      * split; [done|]. intros (n & [= <-] & Hn). congruence.
    + split; [done|]. by intros (n & ? & _).
    + split; [by destruct (is_JWTError e)|]. by intros (n & ? & _).
  - intros e. by apply get_current_user_raises_401.
Qed.

Lemma logout_changes_response response : logout response ≠ response.
Proof.
  unfold logout. destruct response as [l]. intros [= Hl].
  apply (f_equal length) in Hl. rewrite length_app in Hl. cbn in Hl. lia.
Qed.

(** [get_current_active_user] clears the token cookie exactly when the
    request carries a token that is not empty and [get_current_user] rejects
    it; in every other case the response is left as it was, and a token that
    resolves gives its user.  The token decoder is taken to raise nothing
    but [JWTError]. *)
Theorem get_current_active_user_clears_cookie request response db :
  decoder_raises_only_JWTError →
  let after := snd (get_current_active_user request response db) in
  (after = response ∨ after = logout response)
  ∧ (after = logout response ↔
     ∃ token e, cookies request !! "token" = Some token ∧ token ≠ ""
                ∧ get_current_user token db = Raise e)
  ∧ (∀ token user,
       cookies request !! "token" = Some token → token ≠ "" →
       get_current_user token db = Ok user →
       get_current_active_user request response db = (Ok (Some user), response)).
Proof.
  intros Hdec. cbn zeta. unfold get_current_active_user.
  pose proof (logout_changes_response response) as Hne.
  destruct (cookies request !! "token") as [token|] eqn:Hcookie; cbn.
  2: { split; [by left|]. split; [|done].
       split; [by intros ?|]. by intros (? & ? & ? & _). }
  case_bool_decide as Hempty.
  { split; [by left|]. split; [|by intros ? ? [= <-]].
    split; [by intros ?|]. intros (t & e & [= <-] & ? & _). done. }
  destruct (get_current_user token db) as [u|e] eqn:Hcur.
  - cbn. split; [by left|]. split.
    + split; [by intros ?|]. intros (t & e & [= <-] & _ & ?). congruence.
    + intros t user [= <-] _ Hu. rewrite Hcur in Hu. by injection Hu as <-.
  - rewrite (get_current_user_raises_401 _ _ _ Hdec Hcur). cbn.
    split; [by right|]. split; [|intros t user [= <-] _ ?; congruence].
    split; [|done]. intros _. eauto.
Qed.


(** Login and resolution compose: when the decoder reads back the subject
    of every issued token, no issued token is empty and the database keeps
    users under their own names, a request that carries the cookie set by a
    successful login resolves to the user who logged in, and the response is
    left as it was. *)
Theorem login_then_resolve form_data db now tok cookie response :
  tokens_round_trip →
  users_keyed_by_name db →
  login_for_access_token form_data db now = Ok (tok, cookie) →
  ∃ user,
    get_user db (form_username form_data) = Some user
    ∧ get_current_active_user
        (mk_request {[cookie_key cookie := cookie_value cookie]}) response db
      = (Ok (Some user), response).
Proof.
  intros Htokens Hkeys. unfold login_for_access_token.
  destruct (authenticate_user_returns (form_username form_data)
              (form_password form_data) db) as (o & -> & Huser).
  destruct o as [user| |]; [|done..].
  intros [= <- <-]. exists user. split; [by apply Huser|].
  destruct (Htokens now (username user)) as [Hdecode Hfull].
  unfold get_current_active_user.
  cbn [cookies cookie_key cookie_value access_token].
  rewrite lookup_singleton_eq. cbn [not_token default].
  rewrite bool_decide_eq_false_2 by done.
  unfold get_current_user, Datatypes.id. rewrite Hdecode.
  rewrite (Hkeys _ _ (Huser user eq_refl)), (Huser user eq_refl). done.
Qed.

End LoginProperties.

Lemma demo_users_keyed_by_name :
  users_keyed_by_name (H := Demo.signing) Demo.users.
Proof.
  intros name user. cbn. unfold Demo.users.
  rewrite !lookup_insert. repeat case_decide; subst; by intros [= <-].
Qed.

Lemma demo_tokens_round_trip :
  tokens_round_trip (H := Demo.signing) (H0 := Demo.login_collaborators).
Proof. intros now sub. by split. Qed.

(** A token that names a user of the database resolves to that user. *)
Lemma get_current_user_outcome_witness :
  get_current_user (H := Demo.collaborators Demo.answers) "carol" Demo.users
  = Ok Demo.carol.
Proof.
  apply (get_current_user_outcome (C := Demo.collaborators Demo.answers)
           "carol" Demo.users
           (demo_decoder_raises_only_JWTError Demo.answers)).
  exists "carol". by split.
Defined.

(** An expired token is cleared from the response. *)
Lemma get_current_active_user_clears_cookie_witness :
  snd (get_current_active_user (H := Demo.collaborators Demo.answers)
         (mk_request {["token" := "expired"]}) (mk_response []) Demo.users)
  = mk_response ["token"].
Proof.
  apply (get_current_active_user_clears_cookie
           (C := Demo.collaborators Demo.answers)
           (mk_request {["token" := "expired"]}) (mk_response []) Demo.users
           (demo_decoder_raises_only_JWTError Demo.answers)).
  exists "expired", credentials_exception. by split.
Defined.

(** The user who logs in with the right password is the user the cookie
    resolves to. *)
Lemma login_then_resolve_witness :
  get_current_active_user (H := Demo.signing)
    (mk_request {["token" := "jcarol"]}) (mk_response []) Demo.users
  = (Ok (Some Demo.carol), mk_response []).
Proof.
  destruct (login_then_resolve (C := Demo.signing)
              (L := Demo.login_collaborators)
              (mk_form "carol" "pw") Demo.users 0
              (mk_token "jcarol" "bearer")
              (mk_cookie "token" "jcarol" true true "strict")
              (mk_response [])
              demo_tokens_round_trip demo_users_keyed_by_name eq_refl)
    as (user & Huser & Hrun).
  injection Huser as <-. exact Hrun.
Defined.

(** ** Ownership, reads and frames *)

Section HandlerProperties.
Context {C : Collaborators} {B : BlockingEngine C}.

(** Ownership is checked before anything else: on a chat id that is not
    among the chats of the caller, every handler that takes a chat id raises
    the 401 exception and changes nothing, whether or not the chat exists. *)
Theorem unowned_chat_is_refused chat_id prompt idx u w :
  chat_id ∉ chat_ids u →
  get_specific_chat chat_id u w = (Raise unauth_error, w)
  ∧ get_chat_history chat_id u w = (Raise unauth_error, w)
  ∧ delete_prompt chat_id idx u w = (Raise unauth_error, w)
  ∧ delete_chat chat_id u w = (Raise unauth_error, w)
  ∧ stream_ask_a_question chat_id prompt u w = (Raise unauth_error, w)
  ∧ ask_a_question chat_id prompt u w = (Raise unauth_error, w).
Proof.
  intros Hnot.
  unfold get_specific_chat, get_chat_history, delete_prompt, delete_chat,
    stream_ask_a_question, ask_a_question.
  rewrite !bool_decide_eq_true_2 by done. done.
Qed.

Lemma await_each_keeps_world {A X : Type} (f : A → Coroutine X)
    (l : list A) w :
  (∀ x w', snd (f x w') = w') → snd (await_each f l w) = w.
Proof.
  intros Hf. induction l as [|x l IH]; [done|].
  cbn [await_each]. unfold await.
  pose proof (Hf x w) as Hx. destruct (f x w) as [[y|e] w1]; cbn in Hx; subst w1.
  - destruct (await_each f l w) as [[ys|e] w2]; cbn in *; by subst.
  - done.
Qed.

Lemma get_specific_chat_keeps_world chat_id u w :
  snd (get_specific_chat chat_id u w) = w.
Proof.
  unfold get_specific_chat. case_bool_decide; [done|].
  by destruct (_try_get_chat _ _).
Qed.

(** The three reading handlers never change the server or the database,
    whatever they are asked and whether they succeed or raise. *)
Theorem reads_change_nothing cid u w :
  snd (get_specific_chat cid u w) = w
  ∧ snd (get_chat_history cid u w) = w
  ∧ snd (get_all_chats u w) = w.
Proof.
  split; [apply get_specific_chat_keeps_world|]. split.
  - unfold get_chat_history. by case_bool_decide.
  - unfold get_all_chats.
    pose proof (await_each_keeps_world
                  (fun x => get_specific_chat (chat_id x) u) (chats u) w
                  (fun x w' => get_specific_chat_keeps_world _ u w')) as Hw.
    by destruct (await_each _ _ w) as [[fetched|e] w1].
Qed.

End HandlerProperties.

(** A user without chats is refused the deletion of a stored chat. *)
Lemma unowned_chat_is_refused_witness :
  let w := Demo.world Demo.answers Demo.server Demo.users in
  delete_chat "c1" Demo.alice w = (Raise unauth_error, w).
Proof.
  cbn zeta.
  apply (unowned_chat_is_refused
           (B := Demo.blocking Demo.answers (Ok Demo.greeting))
           "c1" "hi" 0 Demo.alice
           (Demo.world Demo.answers Demo.server Demo.users)).
  cbn. apply not_elem_of_nil.
Defined.

(** ** Creation *)

Lemma remove_added (x : string) (S : gset string) :
  x ∉ S → ({[x]} ∪ S) ∖ {[x]} = S.
Proof.
  intros Hx. apply set_eq. intros y.
  rewrite elem_of_difference, elem_of_union, !elem_of_singleton.
  split; [by intros [[->|?] ?]|].
  intros Hy. split; [by right|]. by intros ->.
Qed.

Section CreationProperties.
Context {C : Collaborators}.

Lemma create_new_chat_run
    u model temperature top_k top_p max_length context_window gpu_layers
    repeat_last_n repeat_penalty init_prompt n_threads new_id now w :
  path_exists (weights model) = true →
  let chat :=
    mk_chat new_id (username u) now
      (mk_params model temperature top_k top_p max_length context_window
         gpu_layers repeat_last_n repeat_penalty n_threads init_prompt) in
  let uc := mk_userchat new_id (username u) in
  create_new_chat u model temperature top_k top_p max_length context_window
    gpu_layers repeat_last_n repeat_penalty init_prompt n_threads new_id now w
  = (Ok new_id,
     mk_world
       (mk_redis ({[new_id]} ∪ chats_set (redis w))
          (<[new_id := chat]> (chat_blob (redis w)))
          (<[new_id := history_messages (redis w) new_id
                        ++ [SystemMessage init_prompt]]>
             (message_store (redis w))))
       (update_user (create_chat (db w) uc)
          (mk_user (username u) (auth u) (chats u ++ [uc])))).
Proof. intros Hmodel. unfold create_new_chat. by rewrite Hmodel. Qed.

(** Creation and reading round-trip: after [create_new_chat] succeeds on an
    id that had no transcript, [get_specific_chat] on that id, for a caller
    who owns it, returns the chat with the id, the owner, the creation time
    and every parameter that was given, and the transcript of the one system
    message. *)
Theorem create_then_get_specific_chat
    u model temperature top_k top_p max_length context_window gpu_layers
    repeat_last_n repeat_penalty init_prompt n_threads new_id now w u' :
  path_exists (weights model) = true →
  history_messages (redis w) new_id = [] →
  new_id ∈ chat_ids u' →
  let w' :=
    snd (create_new_chat u model temperature top_k top_p max_length
           context_window gpu_layers repeat_last_n repeat_penalty init_prompt
           n_threads new_id now w) in
  get_specific_chat new_id u' w'
  = (Ok (mk_chatdict
           (mk_chat new_id (username u) now
              (mk_params model temperature top_k top_p max_length
                 context_window gpu_layers repeat_last_n repeat_penalty
                 n_threads init_prompt))
           [SystemMessage init_prompt]), w').
Proof.
  intros Hmodel Hfresh Hown. cbn zeta.
  rewrite create_new_chat_run by done. cbn [snd].
  unfold get_specific_chat, _try_get_chat, sismember, redis_get. cbn.
  rewrite bool_decide_eq_false_2 by (by intros ?).
  rewrite bool_decide_eq_true_2
    by (apply elem_of_union; left; by apply elem_of_singleton).
  cbn. rewrite lookup_insert_eq. cbn.
  unfold history_messages at 1. cbn. rewrite lookup_insert_eq. cbn.
  by rewrite Hfresh.
Qed.

(** Creation and deletion round-trip on the Redis server: when the new id
    was unknown to the server (no membership, no blob, no transcript),
    creating the chat and then deleting it, by a caller who owns it, leaves
    the server exactly as it was. *)
Theorem create_then_delete_chat
    u model temperature top_k top_p max_length context_window gpu_layers
    repeat_last_n repeat_penalty init_prompt n_threads new_id now w u' :
  path_exists (weights model) = true →
  new_id ∉ chats_set (redis w) →
  chat_blob (redis w) !! new_id = None →
  message_store (redis w) !! new_id = None →
  new_id ∈ chat_ids u' →
  ∃ w1 w2,
    create_new_chat u model temperature top_k top_p max_length context_window
      gpu_layers repeat_last_n repeat_penalty init_prompt n_threads new_id
      now w = (Ok new_id, w1)
    ∧ delete_chat new_id u' w1 = (Ok true, w2)
    ∧ redis w2 = redis w.
Proof.
  intros Hmodel Hset Hblob Hstore Hown.
  rewrite create_new_chat_run by done. cbn zeta.
  eexists; eexists. split; [reflexivity|].
  unfold delete_chat, sismember. cbn.
  rewrite bool_decide_eq_false_2 by (by intros ?).
  rewrite bool_decide_eq_true_2
    by (apply elem_of_union; left; by apply elem_of_singleton).
  cbn. split; [reflexivity|].
  unfold srem, redis_delete, history_clear. cbn.
  rewrite remove_added, !delete_insert_id by done.
  by destruct (redis w).
Qed.

End CreationProperties.

(** A chat created on an empty server reads back as it was created. *)
Lemma create_then_get_specific_chat_witness :
  let w := Demo.world Demo.answers Demo.empty_server Demo.users in
  let w' :=
    snd (create_new_chat Demo.alice "7B" (1 # 10) 50 (95 # 100) 2048 2048
           None 64 (13 # 10) "X" 4 "c9" 300 w) in
  fst (get_specific_chat "c9"
         (mk_user "alice" (auth Demo.alice) [mk_userchat "c9" "alice"]) w')
  = Ok (mk_chatdict (mk_chat "c9" "alice" 300 (Demo.params_7B "X"))
          [SystemMessage "X"]).
Proof.
  cbn zeta.
  rewrite (create_then_get_specific_chat
             (C := Demo.collaborators Demo.answers)
             Demo.alice "7B" (1 # 10) 50 (95 # 100) 2048 2048 None 64
             (13 # 10) "X" 4 "c9" 300
             (Demo.world Demo.answers Demo.empty_server Demo.users)
             (mk_user "alice" (auth Demo.alice) [mk_userchat "c9" "alice"])
             eq_refl eq_refl).
  - reflexivity.
  - cbn. apply list_elem_of_singleton. reflexivity.
Defined.

(** A chat created on an empty server and deleted leaves the server
    empty. *)
Lemma create_then_delete_chat_witness :
  let w := Demo.world Demo.answers Demo.empty_server Demo.users in
  let w1 :=
    snd (create_new_chat Demo.alice "7B" (1 # 10) 50 (95 # 100) 2048 2048
           None 64 (13 # 10) "X" 4 "c9" 300 w) in
  redis (snd (delete_chat "c9"
                (mk_user "alice" (auth Demo.alice) [mk_userchat "c9" "alice"])
                w1))
  = Demo.empty_server.
Proof.
  cbn zeta.
  destruct (create_then_delete_chat
              (C := Demo.collaborators Demo.answers)
              Demo.alice "7B" (1 # 10) 50 (95 # 100) 2048 2048 None 64
              (13 # 10) "X" 4 "c9" 300
              (Demo.world Demo.answers Demo.empty_server Demo.users)
              (mk_user "alice" (auth Demo.alice) [mk_userchat "c9" "alice"]))
    as (w1 & w2 & Hcreate & Hdelete & Hsame).
  - reflexivity.
  - cbn. apply not_elem_of_empty.
  - reflexivity.
  - reflexivity.
  - cbn. apply list_elem_of_singleton. reflexivity.
  - rewrite Hcreate. cbn [snd]. rewrite Hdelete. exact Hsame.
Defined.

(** ** Transcripts under truncation, generation and deletion *)

Section TranscriptOperations.
Context {C : Collaborators} {B : BlockingEngine C}.

Lemma delete_prompt_run chat_id idx u w :
  chat_id ∈ chat_ids u →
  idx < Z.of_nat (length (history_messages (redis w) chat_id)) →
  ∃ w', delete_prompt chat_id idx u w = (Ok true, w')
    ∧ db w' = db w
    ∧ chats_set (redis w') = chats_set (redis w)
    ∧ chat_blob (redis w') = chat_blob (redis w)
    ∧ ∀ k, history_messages (redis w') k
           = if decide (chat_id = k)
             then slice_to (history_messages (redis w) chat_id) idx
             else history_messages (redis w) k.
Proof.
  intros Hown Hidx. unfold delete_prompt.
  rewrite bool_decide_eq_false_2 by (by intros ?).
  destruct (Z.geb_spec idx
              (Z.of_nat (length (history_messages (redis w) chat_id))));
    [lia|].
  eexists; split; [done|]. cbn.
  destruct (replay_keeps_chats chat_id
              (slice_to (history_messages (redis w) chat_id) idx)
              (history_clear chat_id (redis w))) as [-> ->].
  do 3 (split; [done|]).
  intros k. rewrite history_messages_replay, !history_messages_clear.
  destruct (decide (chat_id = k)) as [->|]; [|done].
  by rewrite decide_True.
Qed.

Lemma delete_prompt_refused chat_id idx u w :
  Z.of_nat (length (history_messages (redis w) chat_id)) ≤ idx →
  snd (delete_prompt chat_id idx u w) = w.
Proof.
  intros Hidx. unfold delete_prompt. case_bool_decide; [done|].
  by rewrite (proj2 (Z.geb_le _ _) Hidx).
Qed.

(** A successful truncation cannot be repeated: after [delete_prompt]
    succeeds with an index that is not negative, the same call raises the
    202 exception and changes nothing, because the transcript now has
    exactly [idx] messages. *)
Theorem delete_prompt_twice chat_id idx u w :
  chat_id ∈ chat_ids u →
  0 ≤ idx < Z.of_nat (length (history_messages (redis w) chat_id)) →
  let w1 := snd (delete_prompt chat_id idx u w) in
  fst (delete_prompt chat_id idx u w) = Ok true
  ∧ delete_prompt chat_id idx u w1
    = (Raise (mk_exn (HTTPException 202)
                "Unable to delete message, chat in progress"), w1).
Proof.
  intros Hown [Hpos Hlen]. cbn zeta.
  destruct (delete_prompt_run chat_id idx u w Hown Hlen)
    as (w' & -> & _ & _ & _ & Hhist).
  split; [done|]. cbn [snd]. unfold delete_prompt.
  rewrite bool_decide_eq_false_2 by (by intros ?).
  rewrite Hhist, decide_True, slice_to_nonneg by done.
  rewrite length_take.
  by rewrite (proj2 (Z.geb_le _ _)) by lia.
Qed.

(** A negative index counts from the end, as a Python slice does: on an
    owned chat [delete_prompt] with a negative index always succeeds and
    drops the last [-idx] messages of the transcript, all of them when there
    are fewer. *)
Theorem delete_prompt_negative_drops_tail chat_id idx u w :
  chat_id ∈ chat_ids u →
  idx < 0 →
  let before := history_messages (redis w) chat_id in
  ∃ w', delete_prompt chat_id idx u w = (Ok true, w')
    ∧ history_messages (redis w') chat_id
      = take (length before - Z.to_nat (- idx)) before.
Proof.
  intros Hown Hneg. cbn zeta.
  destruct (delete_prompt_run chat_id idx u w Hown)
    as (w' & -> & _ & _ & _ & Hhist); [lia|].
  eexists; split; [done|]. rewrite Hhist, decide_True by done.
  unfold slice_to. destruct (Z.leb_spec 0 idx); [lia|].
  f_equal. lia.
Qed.

Lemma delete_prompt_same_sessions chat_id idx u w :
  same_sessions w (snd (delete_prompt chat_id idx u w)).
Proof.
  unfold same_sessions, delete_prompt. case_bool_decide; [done|].
  destruct (idx >=? _); [done|]. cbn.
  by destruct (replay_keeps_chats chat_id
                 (slice_to (history_messages (redis w) chat_id) idx)
                 (history_clear chat_id (redis w))) as [-> ->].
Qed.

Lemma asked_same_sessions (k prompt : string) (r : Redis) :
  let history :=
    if Z.of_nat (String.length prompt) >? 0
    then history_append k (HumanMessage prompt) r else r in
  chats_set history = chats_set r ∧ chat_blob history = chat_blob r.
Proof. cbn zeta. by destruct (_ >? 0). Qed.

Lemma stream_ask_a_question_same_sessions chat_id prompt u w :
  same_sessions w (snd (stream_ask_a_question chat_id prompt u w)).
Proof.
  unfold same_sessions, stream_ask_a_question. case_bool_decide; [done|].
  destruct (negb _); [done|].
  destruct (_try_get_chat _ _) as [chat|e]; [|done].
  destruct (asked_same_sessions (id chat) prompt (redis w)) as [Hs Hb].
  cbn zeta in Hs, Hb.
  set (history := if Z.of_nat (String.length prompt) >? 0 then _ else _) in *.
  destruct (Llama _ _ _ _ _) as [client|e].
  - rewrite (surjective_pairing (event_generator _ _ _ _)).
    rewrite event_generator_cases. cbn zeta.
    destruct (ending _) as [|e]; cbn; [by rewrite <- Hs, <- Hb|].
    destruct (type_is_UnicodeDecodeError e); cbn; [by rewrite <- Hs, <- Hb|].
    destruct (bool_decide (exc_str e = "")); cbn; by rewrite <- Hs, <- Hb.
  - destruct (is_ValueError e); cbn; by rewrite <- Hs, <- Hb.
Qed.

Lemma ask_a_question_same_sessions chat_id prompt u w :
  same_sessions w (snd (ask_a_question chat_id prompt u w)).
Proof.
  unfold same_sessions, ask_a_question. case_bool_decide; [done|].
  destruct (negb _); [done|].
  destruct (_try_get_chat _ _) as [chat|e]; [|done].
  destruct (asked_same_sessions (id chat) prompt (redis w)) as [Hs Hb].
  cbn zeta in Hs, Hb.
  set (history := if Z.of_nat (String.length prompt) >? 0 then _ else _) in *.
  destruct (complete _ _) as [[answer full]|e]; cbn; by rewrite <- Hs, <- Hb.
Qed.

(** Truncation and generation never touch the registry: [delete_prompt],
    [stream_ask_a_question] and [ask_a_question] leave the database, the set
    of chats and the blobs as they were, for every request and whether they
    succeed or raise. *)
Theorem transcript_handlers_keep_sessions chat_id prompt idx u w :
  same_sessions w (snd (delete_prompt chat_id idx u w))
  ∧ same_sessions w (snd (stream_ask_a_question chat_id prompt u w))
  ∧ same_sessions w (snd (ask_a_question chat_id prompt u w)).
Proof.
  split; [apply delete_prompt_same_sessions|].
  split; [apply stream_ask_a_question_same_sessions|].
  apply ask_a_question_same_sessions.
Qed.

Lemma same_sessions_stored w w' :
  same_sessions w w' → sessions_stored (redis w) → sessions_stored (redis w').
Proof.
  intros (_ & Hs & Hb) Hstored k. rewrite Hs, Hb. apply Hstored.
Qed.

(** The registry stays consistent: when every chat of the set of chats has
    its blob, stored under the id the blob carries, this still holds after
    any call of [create_new_chat], [delete_chat], [delete_all_chats],
    [delete_prompt], [stream_ask_a_question] or [ask_a_question], whether
    the call succeeds or raises. *)
Theorem handlers_keep_sessions_stored w :
  sessions_stored (redis w) →
  (∀ u model temperature top_k top_p max_length context_window gpu_layers
     repeat_last_n repeat_penalty init_prompt n_threads new_id now,
      sessions_stored
        (redis (snd (create_new_chat u model temperature top_k top_p
                       max_length context_window gpu_layers repeat_last_n
                       repeat_penalty init_prompt n_threads new_id now w))))
  ∧ (∀ cid u, sessions_stored (redis (snd (delete_chat cid u w))))
  ∧ (∀ u, sessions_stored (redis (snd (delete_all_chats u w))))
  ∧ (∀ cid idx u, sessions_stored (redis (snd (delete_prompt cid idx u w))))
  ∧ (∀ cid prompt u,
      sessions_stored (redis (snd (stream_ask_a_question cid prompt u w)))
      ∧ sessions_stored (redis (snd (ask_a_question cid prompt u w)))).
Proof.
  intros Hstored. split; [|split; [|split; [|split]]].
  - intros u model temperature top_k top_p max_length context_window
      gpu_layers repeat_last_n repeat_penalty init_prompt n_threads new_id now.
    unfold create_new_chat. destruct (negb _); [done|].
    intros k. cbn. rewrite elem_of_union, elem_of_singleton.
    destruct (decide (new_id = k)) as [->|Hne].
    + intros _. rewrite lookup_insert_eq. by eexists.
    + intros [->|Hk]; [done|]. rewrite lookup_insert_ne by done.
      by apply Hstored.
  - intros cid u. unfold delete_chat. case_bool_decide; [done|].
    destruct (negb _); [done|].
    intros k. cbn. rewrite elem_of_difference, elem_of_singleton.
    intros [Hk Hne]. rewrite lookup_delete_ne by done. by apply Hstored.
  - done.
  - intros cid idx u.
    by eapply same_sessions_stored; [apply delete_prompt_same_sessions|].
  - intros cid prompt u. split.
    + by eapply same_sessions_stored;
        [apply stream_ask_a_question_same_sessions|].
    + by eapply same_sessions_stored; [apply ask_a_question_same_sessions|].
Qed.

End TranscriptOperations.

(** Truncating a transcript of three messages to one, twice. *)
Lemma delete_prompt_twice_witness :
  let w := Demo.world Demo.answers Demo.server Demo.users in
  fst (delete_prompt "c1" 1 Demo.carol
         (snd (delete_prompt "c1" 1 Demo.carol w)))
  = Raise (mk_exn (HTTPException 202)
             "Unable to delete message, chat in progress").
Proof.
  cbn zeta.
  destruct (delete_prompt_twice (C := Demo.collaborators Demo.answers)
              "c1" 1 Demo.carol
              (Demo.world Demo.answers Demo.server Demo.users))
    as [_ Hagain].
  - cbn. apply elem_of_cons. by left.
  - by vm_compute.
  - cbn zeta in Hagain. by rewrite Hagain.
Defined.

(** Index -2 on a transcript of three messages leaves the first one. *)
Lemma delete_prompt_negative_drops_tail_witness :
  let w := Demo.world Demo.answers Demo.server Demo.users in
  history_messages (redis (snd (delete_prompt "c1" (-2) Demo.carol w))) "c1"
  = [SystemMessage "X"].
Proof.
  cbn zeta.
  destruct (delete_prompt_negative_drops_tail
              (C := Demo.collaborators Demo.answers)
              "c1" (-2) Demo.carol
              (Demo.world Demo.answers Demo.server Demo.users))
    as (w' & Hrun & Hkept).
  - cbn. apply elem_of_cons. by left.
  - lia.
  - rewrite Hrun. exact Hkept.
Defined.

Lemma demo_sessions_stored : sessions_stored Demo.server.
Proof.
  intros k Hk. cbn in Hk.
  apply elem_of_union in Hk as [Hk|Hk]; apply elem_of_singleton in Hk as ->.
  - exists Demo.chat1. by split.
  - exists Demo.chat2. by split.
Qed.

(** After the deletion of one chat of a consistent server, the other chat
    still has its blob. *)
Lemma handlers_keep_sessions_stored_witness :
  let w := Demo.world Demo.answers Demo.server Demo.users in
  ∃ chat,
    chat_blob (redis (snd (delete_chat "c1" Demo.carol w))) !! "c2" = Some chat
    ∧ id chat = "c2".
Proof.
  cbn zeta.
  destruct (handlers_keep_sessions_stored
              (B := Demo.blocking Demo.answers (Ok Demo.greeting))
              (Demo.world Demo.answers Demo.server Demo.users)
              demo_sessions_stored) as (_ & Hdelete & _).
  apply (Hdelete "c1" Demo.carol "c2"). by vm_compute.
Defined.

(** ** Generation, once more *)

Section GenerationComposition.
Context {C : Collaborators} {B : BlockingEngine C}.

Lemma asked_history chat_id prompt (r : Redis) :
  history_messages
    (if Z.of_nat (String.length prompt) >? 0
     then history_append chat_id (HumanMessage prompt) r else r) chat_id
  = history_messages r chat_id
    ++ (if bool_decide (prompt = "") then [] else [HumanMessage prompt]).
Proof.
  rewrite prompt_is_empty. case_bool_decide; cbn.
  - by rewrite app_nil_r.
  - rewrite history_messages_append. by rewrite decide_True.
Qed.

Lemma stream_ask_a_question_grows chat_id prompt u w chat resp :
  redis_get (redis w) chat_id = Some chat →
  id chat = chat_id →
  fst (stream_ask_a_question chat_id prompt u w) = Ok resp →
  ∃ added,
    history_messages (redis (snd (stream_ask_a_question chat_id prompt u w)))
      chat_id
    = history_messages (redis w) chat_id ++ added
    ∧ added ≠ [].
Proof.
  intros Hblob Hid. unfold stream_ask_a_question, _try_get_chat.
  case_bool_decide; [done|].
  destruct (sismember (redis w) chat_id); cbn [negb]; [|done].
  rewrite Hblob, Hid.
  pose proof (asked_history chat_id prompt (redis w)) as Hasked.
  set (history := if Z.of_nat (String.length prompt) >? 0 then _ else _) in *.
  assert (∀ m, ∃ added,
             history_messages (history_append chat_id m history) chat_id
             = history_messages (redis w) chat_id ++ added ∧ added ≠ [])
    as Hone.
  { intros m. rewrite history_messages_append, decide_True by done.
    rewrite Hasked, <- app_assoc. eexists; split; [done|].
    by case_bool_decide. }
  destruct (Llama _ _ _ _ _) as [client|e].
  - rewrite (surjective_pairing (event_generator _ _ _ _)).
    rewrite event_generator_cases. cbn zeta. rewrite Hid. intros _.
    destruct (ending _) as [|e]; cbn; [apply Hone|].
    destruct (type_is_UnicodeDecodeError e); cbn; [apply Hone|].
    destruct (bool_decide (exc_str e = "")); apply Hone.
  - destruct (is_ValueError e); cbn; [intros _; apply Hone|done].
Qed.

(** The blocking question on an owned, stored chat never raises, whatever
    the engine does.  The human message is appended exactly when the prompt
    is not empty, and then one message more: when the constructor of the
    engine or the completion raises, of any class and with any text, the
    system message with the error text, which is also what the handler
    returns; otherwise the assistant message with the text of the first
    choice (the empty string when there is no choice or no text), and the
    handler returns [str] of the whole answer. *)
Theorem ask_a_question_outcome chat_id prompt u w chat :
  chat_id ∈ chat_ids u →
  sismember (redis w) chat_id = true →
  redis_get (redis w) chat_id = Some chat →
  id chat = chat_id →
  let before := history_messages (redis w) chat_id in
  let asked := if bool_decide (prompt = "") then [] else [HumanMessage prompt] in
  let returned := fst (ask_a_question chat_id prompt u w) in
  let after :=
    history_messages (redis (snd (ask_a_question chat_id prompt u w))) chat_id in
  let failed (e : exn) :=
    returned = Ok (exc_str e)
    ∧ after = before ++ asked ++ [SystemMessage (exc_str e)] in
  match Llama (weights (model_path (params chat)))
              (Z.of_nat (String.length (init_prompt (params chat)))
               + n_ctx (params chat))
              (n_gpu_layers (params chat)) (n_threads (params chat))
              (last_n_tokens_size (params chat)) with
  | Raise e => failed e
  | Ok client =>
    match Llama_complete client
            (get_prompt (before ++ asked) (params chat)
             +:+ "### Response:" +:+ newline) (params chat) with
    | Raise e => failed e
    | Ok answer =>
      returned = Ok (completion_str answer)
      ∧ after
        = before ++ asked
          ++ [AIMessage match completion_choices answer with
                        | Some (c :: _) => default "" (choice_text c)
                        | _ => ""
                        end]
    end
  end.
Proof.
  intros Hown Hmember Hblob Hid. cbn zeta.
  unfold ask_a_question, _try_get_chat, complete.
  rewrite (bool_decide_eq_false_2 (chat_id ∉ chat_ids u)) by (by intros ?).
  rewrite Hmember. cbn [negb]. rewrite Hblob, Hid.
  pose proof (asked_history chat_id prompt (redis w)) as Hasked.
  set (history := if Z.of_nat (String.length prompt) >? 0 then _ else _) in *.
  assert (∀ m, history_messages (history_append chat_id m history) chat_id
               = history_messages (redis w) chat_id
                 ++ (if bool_decide (prompt = "") then []
                     else [HumanMessage prompt]) ++ [m]) as Hone.
  { intros m. rewrite history_messages_append, decide_True by done.
    by rewrite Hasked, <- app_assoc. }
  rewrite Hasked.
  destruct (Llama _ _ _ _ _) as [client|e]; [|by cbn; rewrite Hone].
  destruct (Llama_complete _ _ _) as [answer|e]; [|by cbn; rewrite Hone].
  cbn. rewrite Hone. split; [done|]. do 3 f_equal.
  by destruct (completion_choices answer) as [[|c cs]|].
Qed.

Lemma ask_a_question_grows chat_id prompt u w chat :
  chat_id ∈ chat_ids u →
  sismember (redis w) chat_id = true →
  redis_get (redis w) chat_id = Some chat →
  id chat = chat_id →
  ∃ added,
    history_messages (redis (snd (ask_a_question chat_id prompt u w))) chat_id
    = history_messages (redis w) chat_id ++ added
    ∧ added ≠ [].
Proof.
  intros Hown Hmember Hblob Hid.
  unfold ask_a_question, _try_get_chat.
  rewrite bool_decide_eq_false_2 by (by intros ?).
  rewrite Hmember. cbn [negb]. rewrite Hblob, Hid.
  pose proof (asked_history chat_id prompt (redis w)) as Hasked.
  set (history := if Z.of_nat (String.length prompt) >? 0 then _ else _) in *.
  assert (∀ m, ∃ added,
             history_messages (history_append chat_id m history) chat_id
             = history_messages (redis w) chat_id ++ added ∧ added ≠ [])
    as Hone.
  { intros m. rewrite history_messages_append, decide_True by done.
    rewrite Hasked, <- app_assoc. eexists; split; [done|].
    by case_bool_decide. }
  destruct (complete _ _) as [[answer full]|e]; cbn; apply Hone.
Qed.

Lemma delete_prompt_undoes chat_id u w1 (before added : list Message) :
  chat_id ∈ chat_ids u →
  history_messages (redis w1) chat_id = before ++ added →
  added ≠ [] →
  ∃ w2, delete_prompt chat_id (Z.of_nat (length before)) u w1 = (Ok true, w2)
    ∧ history_messages (redis w2) chat_id = before.
Proof.
  intros Hown Hafter Hadded.
  destruct (delete_prompt_run chat_id (Z.of_nat (length before)) u w1 Hown)
    as (w2 & -> & _ & _ & _ & Hhist).
  { rewrite Hafter, length_app. destruct added; [done|]. cbn. lia. }
  eexists; split; [done|].
  rewrite Hhist, decide_True, slice_to_nonneg, Hafter by (done || lia).
  rewrite Nat2Z.id. by rewrite take_app_length.
Qed.

(** A generation can be undone: after a streaming request that responded,
    or a blocking request, on an owned chat stored under its own id,
    [delete_prompt] at the length the transcript had before the request
    succeeds and restores exactly that transcript. *)
Theorem question_then_delete_prompt chat_id prompt u w chat :
  chat_id ∈ chat_ids u →
  sismember (redis w) chat_id = true →
  redis_get (redis w) chat_id = Some chat →
  id chat = chat_id →
  let before := history_messages (redis w) chat_id in
  let undone (w1 : World) :=
    ∃ w2,
      delete_prompt chat_id (Z.of_nat (length before)) u w1 = (Ok true, w2)
      ∧ history_messages (redis w2) chat_id = before in
  (∀ resp, fst (stream_ask_a_question chat_id prompt u w) = Ok resp →
           undone (snd (stream_ask_a_question chat_id prompt u w)))
  ∧ undone (snd (ask_a_question chat_id prompt u w)).
Proof.
  intros Hown Hmember Hblob Hid. cbn zeta. split.
  - intros resp Hresp.
    destruct (stream_ask_a_question_grows chat_id prompt u w chat resp
                Hblob Hid Hresp) as (added & Hafter & Hadded).
    by eapply delete_prompt_undoes.
  - destruct (ask_a_question_grows chat_id prompt u w chat
                Hown Hmember Hblob Hid) as (added & Hafter & Hadded).
    by eapply delete_prompt_undoes.
Qed.

End GenerationComposition.

(** A blocking question answered with two choices: the first one is
    committed, the whole answer is returned. *)
Lemma ask_a_question_outcome_witness :
  let w := Demo.world Demo.answers Demo.server Demo.users in
  fst (ask_a_question (B := Demo.blocking Demo.answers (Ok Demo.greeting))
         "c2" "hi" Demo.carol w)
  = Ok "{'choices': [{'text': 'Hello'}, {'text': 'Hi'}]}"
  ∧ history_messages
      (redis (snd (ask_a_question
                     (B := Demo.blocking Demo.answers (Ok Demo.greeting))
                     "c2" "hi" Demo.carol w))) "c2"
    = [SystemMessage "Y"; HumanMessage "hi"; AIMessage "Hello"].
Proof.
  cbn zeta.
  apply (ask_a_question_outcome
           (B := Demo.blocking Demo.answers (Ok Demo.greeting))
           "c2" "hi" Demo.carol
           (Demo.world Demo.answers Demo.server Demo.users) Demo.chat2).
  - cbn. apply elem_of_cons. right. apply list_elem_of_singleton. reflexivity.
  - reflexivity.
  - reflexivity.
  - reflexivity.
Defined.

(** A streamed answer is taken back by truncating at the old length. *)
Lemma question_then_delete_prompt_witness :
  let w := Demo.world Demo.answers Demo.server Demo.users in
  let w1 := snd (stream_ask_a_question "c2" "hi" Demo.carol w) in
  history_messages (redis w1) "c2"
  = [SystemMessage "Y"; HumanMessage "hi"; AIMessage "Hello"]
  ∧ history_messages (redis (snd (delete_prompt "c2" 1 Demo.carol w1))) "c2"
    = [SystemMessage "Y"].
Proof.
  cbn zeta. split; [reflexivity|].
  destruct (question_then_delete_prompt
              (B := Demo.blocking Demo.answers (Ok Demo.greeting))
              "c2" "hi" Demo.carol
              (Demo.world Demo.answers Demo.server Demo.users) Demo.chat2)
    as [Hstream _].
  - cbn. apply elem_of_cons. right. apply list_elem_of_singleton. reflexivity.
  - reflexivity.
  - reflexivity.
  - reflexivity.
  - destruct (Hstream _ eq_refl) as (w2 & Hrun & Hback).
    apply (f_equal snd) in Hrun. cbn [snd] in Hrun.
    rewrite <- Hrun in Hback. exact Hback.
Defined.

(** ** One chat at a time *)

Section IsolationProperties.
Context {C : Collaborators} {B : BlockingEngine C}.

Lemma same_chat_refl (k : string) (r : Redis) : same_chat k r r.
Proof. by unfold same_chat. Qed.

Lemma same_chat_append (k k' : string) (m : Message) (r r' : Redis) :
  k' ≠ k → same_chat k r r' → same_chat k r (history_append k' m r').
Proof.
  intros Hne (Hs & Hb & Hh). unfold same_chat.
  rewrite history_messages_append, decide_False by done. by cbn.
Qed.

(** The handlers work on one chat at a time.  For every chat id [k] other
    than the one a request names, [create_new_chat], [delete_prompt] and
    [delete_chat] leave the membership, the blob and the transcript of [k]
    as they were; so do the two question handlers for every [k] other than
    the id carried by the blob of the chat they were asked about. *)
Theorem other_chats_untouched k :
  (∀ u model temperature top_k top_p max_length context_window gpu_layers
     repeat_last_n repeat_penalty init_prompt n_threads new_id now w,
      new_id ≠ k →
      same_chat k (redis w)
        (redis (snd (create_new_chat u model temperature top_k top_p
                       max_length context_window gpu_layers repeat_last_n
                       repeat_penalty init_prompt n_threads new_id now w))))
  ∧ (∀ cid idx u w,
      cid ≠ k → same_chat k (redis w) (redis (snd (delete_prompt cid idx u w))))
  ∧ (∀ cid u w,
      cid ≠ k → same_chat k (redis w) (redis (snd (delete_chat cid u w))))
  ∧ (∀ cid prompt u w,
      (∀ chat, redis_get (redis w) cid = Some chat → id chat ≠ k) →
      same_chat k (redis w)
        (redis (snd (stream_ask_a_question cid prompt u w)))
      ∧ same_chat k (redis w) (redis (snd (ask_a_question cid prompt u w)))).
Proof.
  split; [|split; [|split]].
  - intros u model temperature top_k top_p max_length context_window gpu_layers
      repeat_last_n repeat_penalty init_prompt n_threads new_id now w Hne.
    unfold create_new_chat. destruct (negb _); [apply same_chat_refl|].
    unfold same_chat, history_messages. cbn.
    rewrite !lookup_insert_ne by done.
    split; [|done]. rewrite elem_of_union, elem_of_singleton.
    split; [by intros [->|?]|by right].
  - intros cid idx u w Hne. unfold delete_prompt.
    case_bool_decide; [apply same_chat_refl|].
    destruct (idx >=? _); [apply same_chat_refl|]. cbn.
    unfold same_chat.
    destruct (replay_keeps_chats cid
                (slice_to (history_messages (redis w) cid) idx)
                (history_clear cid (redis w))) as [-> ->].
    rewrite history_messages_replay, decide_False by done.
    rewrite history_messages_clear, decide_False by done. done.
  - intros cid u w Hne. unfold delete_chat.
    case_bool_decide; [apply same_chat_refl|].
    destruct (negb _); [apply same_chat_refl|].
    unfold same_chat, history_messages. cbn.
    rewrite !lookup_delete_ne by done.
    split; [|done]. rewrite elem_of_difference, elem_of_singleton.
    split; [by intros [? _]|]. intros Hk. split; [done|]. by intros ->.
  - intros cid prompt u w Hblob.
    assert (∀ chat, _try_get_chat (redis w) cid = Ok chat → id chat ≠ k)
      as Hget.
    { intros chat. unfold _try_get_chat. destruct (negb _); [done|].
      destruct (redis_get (redis w) cid) as [chat'|] eqn:Hc; [|done].
      intros [= <-]. by apply Hblob. }
    split.
    + unfold stream_ask_a_question.
      case_bool_decide; [apply same_chat_refl|].
      destruct (negb _); [apply same_chat_refl|].
      destruct (_try_get_chat _ _) as [chat|e] eqn:Hchat;
        [|apply same_chat_refl].
      pose proof (Hget chat eq_refl) as Hne.
      set (history := if Z.of_nat (String.length prompt) >? 0 then _ else _).
      assert (same_chat k (redis w) history) as Hsame.
      { subst history. destruct (_ >? 0); [|apply same_chat_refl].
        apply same_chat_append; [done|apply same_chat_refl]. }
      destruct (Llama _ _ _ _ _) as [client|e].
      * rewrite (surjective_pairing (event_generator _ _ _ _)).
        rewrite event_generator_cases. cbn zeta.
        destruct (ending _) as [|e]; cbn; [by apply same_chat_append|].
        destruct (type_is_UnicodeDecodeError e); cbn;
          [by apply same_chat_append|].
        destruct (bool_decide (exc_str e = "")); by apply same_chat_append.
      * destruct (is_ValueError e); cbn; [by apply same_chat_append|done].
    + unfold ask_a_question.
      case_bool_decide; [apply same_chat_refl|].
      destruct (negb _); [apply same_chat_refl|].
      destruct (_try_get_chat _ _) as [chat|e] eqn:Hchat;
        [|apply same_chat_refl].
      pose proof (Hget chat eq_refl) as Hne.
      set (history := if Z.of_nat (String.length prompt) >? 0 then _ else _).
      assert (same_chat k (redis w) history) as Hsame.
      { subst history. destruct (_ >? 0); [|apply same_chat_refl].
        apply same_chat_append; [done|apply same_chat_refl]. }
      destruct (complete _ _) as [[answer full]|e]; cbn;
        by apply same_chat_append.
Qed.

(** One dangling reference breaks the whole listing: when some chat of the
    user is not in the set of chats of the server, [get_all_chats] raises
    and returns no summary at all, not even for the chats that are stored;
    the exception is the one [get_specific_chat] raises on the first chat,
    in the order of the user's list, that cannot be read. *)
Theorem get_all_chats_dangling_reference u w x :
  x ∈ chats u →
  chat_id x ∉ chats_set (redis w) →
  ∃ y e,
    y ∈ chats u
    ∧ get_specific_chat (chat_id y) u w = (Raise e, w)
    ∧ get_all_chats u w = (Raise e, w).
Proof.
  intros Hx Hgone. unfold get_all_chats.
  assert (∃ y e, y ∈ chats u
            ∧ get_specific_chat (chat_id y) u w = (Raise e, w)
            ∧ await_each (fun x => get_specific_chat (chat_id x) u) (chats u) w
              = (Raise e, w)) as (y & e & Hy & Hone & ->); [|eauto].
  assert (∀ l, x ∈ l → l ⊆ chats u →
            ∃ y e, y ∈ chats u
              ∧ get_specific_chat (chat_id y) u w = (Raise e, w)
              ∧ await_each (fun x => get_specific_chat (chat_id x) u) l w
                = (Raise e, w)) as Hrec; [|by apply Hrec].
  induction l as [|z l IH]; intros Hin Hsub; [by apply not_elem_of_nil in Hin|].
  cbn [await_each]. unfold await.
  assert (z ∈ chats u) as Hz by (apply Hsub; left).
  pose proof (get_specific_chat_keeps_world (chat_id z) u w) as Hw.
  destruct (get_specific_chat (chat_id z) u w) as [[d|e] w1] eqn:Hrun;
    cbn in Hw; subst w1.
  - apply elem_of_cons in Hin as [->|Hin].
    + exfalso. revert Hrun. unfold get_specific_chat, _try_get_chat, sismember.
      case_bool_decide; [done|].
      by rewrite bool_decide_eq_false_2.
    + destruct IH as (y & e & Hy & Hone & ->); [done| |eauto].
      intros v Hv. apply Hsub. by right.
  - eauto.
Qed.

(** What a deleted chat answers, to a caller whose list still names it:
    after [delete_chat] succeeds, reading the chat, asking it a question
    (streaming or blocking) and deleting it again raise the [ValueError] of
    a chat that does not exist, the transcript reads as the empty list, and
    every truncation at an index that is not negative raises the 202
    exception. *)
Theorem deleted_chat_answers cid prompt idx u w :
  cid ∈ chat_ids u →
  sismember (redis w) cid = true →
  0 ≤ idx →
  let gone := mk_exn ValueError "Chat does not exist" in
  ∃ w1,
    delete_chat cid u w = (Ok true, w1)
    ∧ get_specific_chat cid u w1 = (Raise gone, w1)
    ∧ get_chat_history cid u w1 = (Ok [], w1)
    ∧ stream_ask_a_question cid prompt u w1 = (Raise gone, w1)
    ∧ ask_a_question cid prompt u w1 = (Raise gone, w1)
    ∧ delete_chat cid u w1 = (Raise gone, w1)
    ∧ delete_prompt cid idx u w1
      = (Raise (mk_exn (HTTPException 202)
                  "Unable to delete message, chat in progress"), w1).
Proof.
  intros Hown Hmember Hidx. cbn zeta. unfold delete_chat at 1.
  rewrite bool_decide_eq_false_2 by (by intros ?).
  rewrite Hmember. cbn [negb]. eexists; split; [done|].
  set (w1 := mk_world _ _).
  assert (sismember (redis w1) cid = false) as Hgone.
  { unfold sismember, srem. cbn. apply bool_decide_eq_false_2.
    rewrite elem_of_difference, elem_of_singleton. by intros [_ ?]. }
  assert (history_messages (redis w1) cid = []) as Hempty.
  { unfold history_messages. cbn. by rewrite lookup_delete_eq. }
  unfold get_specific_chat, get_chat_history, stream_ask_a_question,
    ask_a_question, delete_chat, delete_prompt, _try_get_chat.
  rewrite !bool_decide_eq_false_2 by (by intros ?).
  rewrite Hgone, Hempty. cbn [negb length].
  by rewrite (proj2 (Z.geb_le idx (Z.of_nat 0))) by done.
Qed.

End IsolationProperties.

(** A user whose list names a chat the server does not hold gets no
    listing. *)
Lemma get_all_chats_dangling_reference_witness :
  fst (get_all_chats
         (mk_user "carol" [] [mk_userchat "c1" "carol"; mk_userchat "c7" "carol"])
         (Demo.world Demo.answers Demo.server Demo.users))
  = Raise (mk_exn ValueError "Chat does not exist").
Proof.
  destruct (get_all_chats_dangling_reference
              (C := Demo.collaborators Demo.answers)
              (mk_user "carol" []
                 [mk_userchat "c1" "carol"; mk_userchat "c7" "carol"])
              (Demo.world Demo.answers Demo.server Demo.users)
              (mk_userchat "c7" "carol"))
    as (y & e & Hy & Hone & Hall).
  - cbn. apply elem_of_cons. right. apply list_elem_of_singleton. reflexivity.
  - by vm_compute.
  - rewrite Hall. cbn in Hy.
    apply elem_of_cons in Hy as [->|Hy];
      [discriminate Hone|apply list_elem_of_singleton in Hy as ->].
    by injection Hone as <-.
Defined.

(** The transcript of a deleted chat reads as the empty list. *)
Lemma deleted_chat_answers_witness :
  let w := Demo.world Demo.answers Demo.server Demo.users in
  fst (get_chat_history "c1" Demo.carol (snd (delete_chat "c1" Demo.carol w)))
  = Ok [].
Proof.
  cbn zeta.
  destruct (deleted_chat_answers
              (B := Demo.blocking Demo.answers (Ok Demo.greeting))
              "c1" "hi" 0 Demo.carol
              (Demo.world Demo.answers Demo.server Demo.users))
    as (w1 & Hdelete & _ & Hhistory & _).
  - cbn. apply elem_of_cons. by left.
  - reflexivity.
  - lia.
  - rewrite Hdelete. cbn [snd]. by rewrite Hhistory.
Defined.
